(** * week1/scraper.py: a verified model of the page fetcher and extractor

    The three entry points of [week1/scraper.py] ([fetch_website_contents],
    [fetch_website_links], [fetch_website_contents_selenium]) are glue around
    three external collaborators: the [requests] HTTP client, the
    [BeautifulSoup] document tree, and the Selenium web driver.  The
    collaborators are modelled by the operations the scraper calls on them
    (modules [PyStr], [Bs4], [HtmlParser], [Dammit], [Py]); network, decoder,
    parser and browser behaviour enter through an environment of oracles, and
    the mutable state (log of requests, browser sessions, clock) is threaded
    through a small state-and-exception monad. *)

From stdpp Require Import base list strings gmap.
From Stdlib Require Import Ascii String.

Local Open Scope string_scope.
Local Open Scope list_scope.
Local Set Warnings "-register-all".

(** ** Python strings

    A Python [str] is modelled as a [string]; its characters are the code
    points below 256.  Length, concatenation, slicing and joining do not
    depend on the alphabet. *)
Module PyStr.

(** The line feed, written [\n] in the source. *)
Definition LF : string := String (ascii_of_nat 10) EmptyString.

(** [str.isspace] on one character: TAB..CR, FS..US, SPACE, NEL, NBSP. *)
Definition isspace (c : ascii) : bool :=
  let n := nat_of_ascii c in
  (Nat.leb 9 n && Nat.leb n 13) || (Nat.leb 28 n && Nat.leb n 32)
  || Nat.eqb n 133 || Nat.eqb n 160.

Fixpoint lstrip (s : string) : string :=
  match s with
  | EmptyString => EmptyString
  | String c r => if isspace c then lstrip r else s
  end.

Fixpoint rstrip (s : string) : string :=
  match s with
  | EmptyString => EmptyString
  | String c r =>
      match rstrip r with
      | EmptyString => if isspace c then EmptyString else String c EmptyString
      | r' => String c r'
      end
  end.

(** [s.strip()] *)
Definition strip (s : string) : string := rstrip (lstrip s).

(** [s[:n]] for a non-negative [n]. *)
Fixpoint slice_to (n : nat) (s : string) : string :=
  match n, s with
  | O, _ => EmptyString
  | _, EmptyString => EmptyString
  | S m, String c r => String c (slice_to m r)
  end.

(** [sep.join(parts)] *)
Definition join (sep : string) (parts : list string) : string :=
  String.concat sep parts.

(** [s.startswith(p)] *)
Definition startswith (p s : string) : bool := String.prefix p s.

(** [sub in s] *)
Fixpoint contains (sub s : string) : bool :=
  String.prefix sub s
  || match s with
     | EmptyString => false
     | String _ r => contains sub r
     end.

(** Truth value of a string: non-empty. *)
Definition nonempty (s : string) : bool :=
  match s with EmptyString => false | String _ _ => true end.

End PyStr.

(** ** The BeautifulSoup document tree

    Every element object has an identity; for tags it is recorded as [uid]
    (strings are never the target of a mutation here).  The soup object
    itself is the tag named [[document]]. *)
Module Bs4.

(** The classes of string nodes.  Only exact [NavigableString] and [CData]
    nodes are "interesting" to [get_text]. *)
Inductive StrKind :=
| NavigableString | CData | Comment | Doctype | Declaration
| ProcessingInstruction | Script | Stylesheet | TemplateString
| RubyTextString | RubyParenthesisString.

Inductive PageElement :=
| Str (kind : StrKind) (text : string)
| Tag (uid : nat) (name : string) (attrs : list (string * string))
      (contents : list PageElement).

Definition ROOT_TAG_NAME : string := "[document]".

Definition BeautifulSoup_object (contents : list PageElement) (uid : nat)
  : PageElement := Tag uid ROOT_TAG_NAME [] contents.

(** [tag.descendants]: all strict descendants, in document order. *)
Fixpoint descendants (e : PageElement) : list PageElement :=
  match e with
  | Str _ _ => []
  | Tag _ _ _ cs => flat_map (fun c => c :: descendants c) cs
  end.

Definition tag_named (names : list string) (e : PageElement) : bool :=
  match e with
  | Str _ _ => false
  | Tag _ n _ _ => bool_decide (n ∈ names)
  end.

(** [tag.find_all(names)], also written [tag(names)]. *)
Definition find_all (names : list string) (e : PageElement)
  : list PageElement :=
  List.filter (tag_named names) (descendants e).

(** [tag.find(name)], also written [tag.name]: the first match or [None]. *)
Definition find (name : string) (e : PageElement) : option PageElement :=
  head (find_all [name] e).

(** [tag.string]: the single string below a chain of only children. *)
Fixpoint string_of (e : PageElement) : option string :=
  match e with
  | Str _ s => Some s
  | Tag _ _ _ [c] => string_of c
  | Tag _ _ _ _ => None
  end.

Fixpoint dict_get (key : string) (d : list (string * string))
  : option string :=
  match d with
  | [] => None
  | (k, v) :: r => if String.eqb k key then Some v else dict_get key r
  end.

(** [tag.get(key)] *)
Definition get (key : string) (e : PageElement) : option string :=
  match e with
  | Str _ _ => None
  | Tag _ _ a _ => dict_get key a
  end.

Definition is_object (u : nat) (e : PageElement) : bool :=
  match e with
  | Str _ _ => false
  | Tag i _ _ _ => Nat.eqb i u
  end.

(** The tree [root] after the object [u] was unlinked from its parent. *)
Fixpoint unlink (u : nat) (root : PageElement) : PageElement :=
  match root with
  | Str k s => Str k s
  | Tag i n a cs =>
      Tag i n a
        (flat_map (fun c => if is_object u c then [] else [unlink u c]) cs)
  end.

(** [target.decompose()], seen from the tree [root] that may hold it. *)
Definition decompose (target : PageElement) (root : PageElement)
  : PageElement :=
  match target with
  | Str _ _ => root
  | Tag u _ _ _ => unlink u root
  end.

Definition interesting (k : StrKind) : bool :=
  match k with
  | NavigableString | CData => true
  | _ => false
  end.

(** One step of [_all_strings(strip)] on a descendant. *)
Definition yield_string (strip : bool) (d : PageElement) : list string :=
  match d with
  | Tag _ _ _ _ => []
  | Str k s =>
      if interesting k then
        if strip then
          let s' := PyStr.strip s in
          if PyStr.nonempty s' then [s'] else []
        else [s]
      else []
  end.

Definition all_strings (strip : bool) (e : PageElement) : list string :=
  flat_map (yield_string strip) (descendants e).

(** [tag.get_text(separator, strip)] *)
Definition get_text (separator : string) (strip : bool) (e : PageElement)
  : string :=
  PyStr.join separator (all_strings strip e).

End Bs4.

(** ** Reference tree builder

    [BeautifulSoup(markup, "html.parser")] on the everyday fragment of HTML:
    start tags (attributes double-quoted, single-quoted, bare or valueless),
    end tags, self-closing and void tags, raw text inside [script] and
    [style], and character data.  Character references, comments and
    declarations are outside the fragment, and an unterminated tag at the end
    of the input is dropped.  The theorems about the scraper quantify over an
    arbitrary parser; this one instantiates them on concrete markup. *)
Module HtmlParser.
Import Bs4.

Inductive Token :=
| StartTag (name : string) (attrs : list (string * string)) (startend : bool)
| EndTag (name : string)
| Data (text : string).

Definition between (lo hi : nat) (c : ascii) : bool :=
  Nat.leb lo (nat_of_ascii c) && Nat.leb (nat_of_ascii c) hi.

Definition is_alpha (c : ascii) : bool := between 65 90 c || between 97 122 c.

Definition lower (c : ascii) : ascii :=
  if between 65 90 c then ascii_of_nat (nat_of_ascii c + 32) else c.

Fixpoint lower_string (s : string) : string :=
  match s with
  | EmptyString => EmptyString
  | String c r => String (lower c) (lower_string r)
  end.

Definition snoc (s : string) (c : ascii) : string := s +:+ String c EmptyString.

Definition one (c : ascii) : string := String c EmptyString.

(** The double quote character. *)
Definition DQ : ascii := ascii_of_nat 34.

(** Attribute dictionaries keep the first position of a key and its last
    value. *)
Fixpoint dict_set (k v : string) (d : list (string * string))
  : list (string * string) :=
  match d with
  | [] => [(k, v)]
  | (k', v') :: r =>
      if String.eqb k' k then (k', v) :: r else (k', v') :: dict_set k v r
  end.

Definition CDATA_CONTENT_ELEMENTS : list string := ["script"; "style"].

Inductive Lex :=
| LData
| LOpen
| LEndName (buf : string)
| LStartName (buf : string)
| LAttrs (n : string) (a : list (string * string))
| LAttrName (n : string) (a : list (string * string)) (k : string)
| LAfterName (n : string) (a : list (string * string)) (k : string)
| LAttrEq (n : string) (a : list (string * string)) (k : string)
| LAttrVal (n : string) (a : list (string * string)) (k : string)
           (quote : ascii) (v : string)
| LAttrBare (n : string) (a : list (string * string)) (k v : string)
| LSlash (n : string) (a : list (string * string))
| LCdata (n : string)
| LCdataLt (n : string)
| LCdataEnd (n : string) (buf : string).

(** The state after a start tag was closed by [>]. *)
Definition after_start (n : string) (startend : bool) : Lex :=
  if negb startend && bool_decide (n ∈ CDATA_CONTENT_ELEMENTS)
  then LCdata n else LData.

Definition emit_start (n : string) (a : list (string * string))
           (startend : bool) : Lex * list Token :=
  (after_start n startend, [StartTag n a startend]).

Definition lex_step (st : Lex) (c : ascii) : Lex * list Token :=
  let eq := Ascii.eqb c in
  match st with
  | LData => if eq "<"%char then (LOpen, []) else (LData, [Data (one c)])
  | LOpen =>
      if eq "/"%char then (LEndName "", [])
      else if is_alpha c then (LStartName (one (lower c)), [])
      else if eq "<"%char then (LOpen, [Data "<"])
      else (LData, [Data "<"; Data (one c)])
  | LEndName buf =>
      if eq ">"%char then (LData, [EndTag buf])
      else if PyStr.isspace c then (LEndName buf, [])
      else (LEndName (snoc buf (lower c)), [])
  | LStartName buf =>
      if eq ">"%char then emit_start buf [] false
      else if eq "/"%char then (LSlash buf [], [])
      else if PyStr.isspace c then (LAttrs buf [], [])
      else (LStartName (snoc buf (lower c)), [])
  | LAttrs n a =>
      if eq ">"%char then emit_start n a false
      else if eq "/"%char then (LSlash n a, [])
      else if PyStr.isspace c then (LAttrs n a, [])
      else (LAttrName n a (one (lower c)), [])
  | LAttrName n a k =>
      if eq "="%char then (LAttrEq n a k, [])
      else if eq ">"%char then emit_start n (dict_set k "" a) false
      else if eq "/"%char then (LSlash n (dict_set k "" a), [])
      else if PyStr.isspace c then (LAfterName n a k, [])
      else (LAttrName n a (snoc k (lower c)), [])
  | LAfterName n a k =>
      if eq "="%char then (LAttrEq n a k, [])
      else if eq ">"%char then emit_start n (dict_set k "" a) false
      else if eq "/"%char then (LSlash n (dict_set k "" a), [])
      else if PyStr.isspace c then (LAfterName n a k, [])
      else (LAttrName n (dict_set k "" a) (one (lower c)), [])
  | LAttrEq n a k =>
      if eq DQ || eq "'"%char then (LAttrVal n a k c "", [])
      else if eq ">"%char then emit_start n (dict_set k "" a) false
      else if PyStr.isspace c then (LAttrEq n a k, [])
      else (LAttrBare n a k (one c), [])
  | LAttrVal n a k q v =>
      if eq q then (LAttrs n (dict_set k v a), [])
      else (LAttrVal n a k q (snoc v c), [])
  | LAttrBare n a k v =>
      if eq ">"%char then emit_start n (dict_set k v a) false
      else if PyStr.isspace c then (LAttrs n (dict_set k v a), [])
      else (LAttrBare n a k (snoc v c), [])
  | LSlash n a =>
      if eq ">"%char then emit_start n a true
      else if PyStr.isspace c then (LAttrs n a, [])
      else (LAttrName n a (one (lower c)), [])
  | LCdata n => if eq "<"%char then (LCdataLt n, []) else (LCdata n, [Data (one c)])
  | LCdataLt n =>
      if eq "/"%char then (LCdataEnd n "", [])
      else if eq "<"%char then (LCdataLt n, [Data "<"])
      else (LCdata n, [Data "<"; Data (one c)])
  | LCdataEnd n buf =>
      if eq ">"%char then
        if String.eqb (lower_string (PyStr.rstrip buf)) n then (LData, [EndTag n])
        else (LCdata n, [Data ("</" +:+ buf +:+ ">")])
      else if eq "<"%char then (LCdataLt n, [Data ("</" +:+ buf)])
      else (LCdataEnd n (snoc buf c), [])
  end.

Fixpoint lex (st : Lex) (markup : string) : list Token :=
  match markup with
  | EmptyString => match st with LOpen => [Data "<"] | _ => [] end
  | String c r => let '(st', out) := lex_step st c in out ++ lex st' r
  end.

(** An open tag of the builder's stack with the children parsed so far. *)
Record Frame := mkFrame {
  f_uid : nat;
  f_name : string;
  f_attrs : list (string * string);
  f_contents : list PageElement
}.

Record Builder := mkBuilder {
  current_data : string;
  tagStack : list Frame;            (* innermost open tag first *)
  document : list PageElement;      (* contents of the soup object *)
  already_closed_empty_element : list string;
  next_uid : nat
}.

Definition empty_element_tags : list string :=
  ["area"; "base"; "br"; "col"; "embed"; "hr"; "img"; "input"; "keygen";
   "link"; "menuitem"; "meta"; "param"; "source"; "track"; "wbr";
   "basefont"; "bgsound"; "command"; "frame"; "image"; "isindex"; "nextid";
   "spacer"].

Definition preserve_whitespace_tags : list string := ["pre"; "textarea"].

Definition string_container (n : string) : option StrKind :=
  if String.eqb n "script" then Some Script
  else if String.eqb n "style" then Some Stylesheet
  else if String.eqb n "template" then Some TemplateString
  else if String.eqb n "rt" then Some RubyTextString
  else if String.eqb n "rp" then Some RubyParenthesisString
  else None.

(** The class of a new string: decided by the innermost open container. *)
Fixpoint container_kind (stack : list Frame) : StrKind :=
  match stack with
  | [] => NavigableString
  | f :: r =>
      match string_container (f_name f) with
      | Some k => k
      | None => container_kind r
      end
  end.

Definition ascii_space (c : ascii) : bool :=
  let n := nat_of_ascii c in
  Nat.eqb n 32 || Nat.eqb n 10 || Nat.eqb n 9 || Nat.eqb n 12 || Nat.eqb n 13.

Fixpoint all_chars (p : ascii -> bool) (s : string) : bool :=
  match s with
  | EmptyString => true
  | String c r => p c && all_chars p r
  end.

Definition append_child (c : PageElement) (b : Builder) : Builder :=
  match tagStack b with
  | [] => mkBuilder (current_data b) [] (document b ++ [c])
            (already_closed_empty_element b) (next_uid b)
  | f :: r =>
      mkBuilder (current_data b)
        (mkFrame (f_uid f) (f_name f) (f_attrs f) (f_contents f ++ [c]) :: r)
        (document b) (already_closed_empty_element b) (next_uid b)
  end.

Definition endData (b : Builder) : Builder :=
  match current_data b with
  | EmptyString => b
  | data =>
      let collapse :=
        all_chars ascii_space data
        && forallb (fun f => negb (bool_decide (f_name f ∈ preserve_whitespace_tags)))
                   (tagStack b) in
      let data' :=
        if collapse then
          if PyStr.contains PyStr.LF data then PyStr.LF else " "
        else data in
      append_child (Str (container_kind (tagStack b)) data')
        (mkBuilder "" (tagStack b) (document b)
           (already_closed_empty_element b) (next_uid b))
  end.

Definition pushTag (n : string) (a : list (string * string)) (b : Builder)
  : Builder :=
  mkBuilder (current_data b) (mkFrame (next_uid b) n a [] :: tagStack b)
    (document b) (already_closed_empty_element b) (S (next_uid b)).

Definition popTag (b : Builder) : Builder :=
  match tagStack b with
  | [] => b
  | f :: r =>
      append_child (Tag (f_uid f) (f_name f) (f_attrs f) (f_contents f))
        (mkBuilder (current_data b) r (document b)
           (already_closed_empty_element b) (next_uid b))
  end.

(** Pop up to and including the innermost open tag called [n]. *)
Fixpoint popToTag_from (n : string) (stack : list Frame) (b : Builder)
  : Builder :=
  match stack with
  | [] => b
  | f :: r =>
      let b' := popTag b in
      if String.eqb (f_name f) n then b' else popToTag_from n r b'
  end.

Definition popToTag (n : string) (b : Builder) : Builder :=
  if existsb (fun f => String.eqb (f_name f) n) (tagStack b)
  then popToTag_from n (tagStack b) b else b.

Definition soup_handle_endtag (n : string) (b : Builder) : Builder :=
  popToTag n (endData b).

Fixpoint remove_first (n : string) (l : list string) : list string :=
  match l with
  | [] => []
  | x :: r => if String.eqb x n then r else x :: remove_first n r
  end.

Definition handle_endtag (n : string) (b : Builder) : Builder :=
  if bool_decide (n ∈ already_closed_empty_element b) then
    mkBuilder (current_data b) (tagStack b) (document b)
      (remove_first n (already_closed_empty_element b)) (next_uid b)
  else soup_handle_endtag n b.

Definition handle_starttag (n : string) (a : list (string * string))
           (startend : bool) (b : Builder) : Builder :=
  let b1 := pushTag n a (endData b) in
  if startend then soup_handle_endtag n b1
  else if bool_decide (n ∈ empty_element_tags) then
    let b2 := soup_handle_endtag n b1 in
    mkBuilder (current_data b2) (tagStack b2) (document b2)
      (already_closed_empty_element b2 ++ [n]) (next_uid b2)
  else b1.

Definition handle_data (d : string) (b : Builder) : Builder :=
  mkBuilder (current_data b +:+ d) (tagStack b) (document b)
    (already_closed_empty_element b) (next_uid b).

Definition feed_token (b : Builder) (t : Token) : Builder :=
  match t with
  | StartTag n a se => handle_starttag n a se b
  | EndTag n => handle_endtag n b
  | Data d => handle_data d b
  end.

Fixpoint close_all (stack : list Frame) (b : Builder) : Builder :=
  match stack with
  | [] => b
  | _ :: r => close_all r (popTag b)
  end.

(** [BeautifulSoup(markup, "html.parser")] *)
Definition BeautifulSoup (markup : string) : PageElement :=
  let b0 := mkBuilder "" [] [] [] 1 in
  let b1 := endData (fold_left feed_token (lex LData markup) b0) in
  BeautifulSoup_object (document (close_all (tagStack b1) b1)) 0.

End HtmlParser.

(** ** Reference decoding of bytes

    [BeautifulSoup] decodes a [bytes] document to a [str] before it parses it
    (its [UnicodeDammit]): an encoding the document declares is tried before
    any guess.  The reference below covers two kinds of document: ASCII-only
    documents without a declaration, which decode to themselves, and
    documents whose first charset declaration is
    [<meta charset="iso-8859-1">] within the first 2048 bytes, which are
    decoded as Latin-1 whatever their bytes are.  Other documents are decoded
    as UTF-8 when that stays within the code points below 256 and as Latin-1
    otherwise; for those the library may guess differently.  The theorems
    about the scraper quantify over an arbitrary decoder. *)
Module Dammit.

Definition byte_of_nat (n : nat) : Byte.byte := byte_of_ascii (ascii_of_nat n).

Definition nat_of_byte (b : Byte.byte) : nat := nat_of_ascii (ascii_of_byte b).

(** [s.encode("utf-8")] for code points below 256. *)
Fixpoint utf8_encode (s : string) : list Byte.byte :=
  match s with
  | EmptyString => []
  | String c r =>
      let n := nat_of_ascii c in
      if Nat.ltb n 128 then byte_of_ascii c :: utf8_encode r
      else byte_of_nat (192 + n / 64) :: byte_of_nat (128 + n mod 64)
             :: utf8_encode r
  end.

(** [b.decode("utf-8")], [None] on invalid input and on code points from 256
    on. *)
Fixpoint utf8_decode (b : list Byte.byte) : option string :=
  match b with
  | [] => Some EmptyString
  | x :: r =>
      let n := nat_of_byte x in
      if Nat.ltb n 128 then
        option_map (String (ascii_of_byte x)) (utf8_decode r)
      else if Nat.eqb n 194 || Nat.eqb n 195 then
        match r with
        | y :: r' =>
            let m := nat_of_byte y in
            if Nat.leb 128 m && Nat.ltb m 192 then
              option_map (String (ascii_of_nat ((n - 192) * 64 + (m - 128))))
                         (utf8_decode r')
            else None
        | [] => None
        end
      else None
  end.

(** [b.decode("iso-8859-1")] *)
Definition latin1_decode (b : list Byte.byte) : string :=
  string_of_list_byte b.

Definition latin1_declaration : string :=
  "<meta charset=" +:+ HtmlParser.one HtmlParser.DQ +:+ "iso-8859-1"
  +:+ HtmlParser.one HtmlParser.DQ.

Definition declares_latin1 (b : list Byte.byte) : bool :=
  PyStr.contains latin1_declaration (PyStr.slice_to 2048 (latin1_decode b)).

(** The [str] the document is parsed from. *)
Definition decode (b : list Byte.byte) : string :=
  if declares_latin1 b then latin1_decode b
  else match utf8_decode b with
       | Some s => s
       | None => latin1_decode b
       end.

End Dammit.

(** ** Python values, exceptions and effects *)
Module Py.

Inductive Exception :=
| HTTPError (status_code : nat)        (* requests: raised by raise_for_status *)
| RequestException (reason : string)   (* requests: transport failure *)
| TypeError
| AttributeError
| ParserRejectedMarkup
| WebDriverException (reason : string).

Inductive Result (A : Type) :=
| Return (value : A)
| Raise (e : Exception).
Arguments Return {A} value.
Arguments Raise {A} e.

(** An HTTP request as [requests.get(url, headers=...)] sends it. *)
Record Request := mkRequest {
  req_url : string;
  req_headers : list (string * string)
}.

Record Response := mkResponse {
  status_code : nat;
  content : list Byte.byte        (* the body, as [bytes] *)
}.

(** What [BeautifulSoup] is given: the [bytes] of a response or a [str]. *)
Inductive Markup :=
| Bytes (b : list Byte.byte)
| Text (s : string).

Inductive HttpOutcome :=
| Answered (r : Response)
| TransportFailure (reason : string).

(** A browser session behind a web driver handle. *)
Record Session := mkSession {
  alive : bool;
  arguments : list string;
  current_url : option string;
  implicit_wait : nat
}.

Record World := mkWorld {
  sent : list Request;             (* the calls of [requests.get], oldest first *)
  sessions : gmap nat Session;     (* driver handle -> session *)
  clock : nat
}.

(** What the outside world does: the network, the parser, the browser.
    [http] is how one call of [requests.get] ends, redirects followed. *)
Record Env := mkEnv {
  http : World -> Request -> HttpOutcome;
  html_parser : string -> option Bs4.PageElement; (* [None]: markup rejected *)
  unicode_dammit : list Byte.byte -> string;   (* the decoding of a document *)
  chrome_launch : World -> option string;      (* [Some reason]: launch fails *)
  navigation : World -> string -> option string; (* [Some reason]: get fails *)
  rendered : World -> string -> Result string  (* markup of the page shown *)
}.

(** Computations that read and change the world and may raise. *)
Definition M (A : Type) : Type := World -> Result A * World.

Definition ret {A} (a : A) : M A := fun w => (Return a, w).

Definition bind {A B} (m : M A) (k : A -> M B) : M B :=
  fun w =>
    match m w with
    | (Return a, w') => k a w'
    | (Raise e, w') => (Raise e, w')
    end.

Definition lift {A} (r : Result A) : M A := fun w => (r, w).

(** [try: body finally: final] *)
Definition try_finally {A} (body : M A) (final : M unit) : M A :=
  fun w =>
    let '(r, w1) := body w in
    match final w1 with
    | (Return _, w2) => (r, w2)
    | (Raise e, w2) => (Raise e, w2)
    end.

(** [a + b] where [a] may be [None]. *)
Definition add (a : option string) (b : string) : Result string :=
  match a with
  | Some s => Return (s +:+ b)
  | None => Raise TypeError
  end.

(** Truth value of a [str] or [None]. *)
Definition truthy (v : option string) : bool :=
  match v with
  | Some s => PyStr.nonempty s
  | None => false
  end.

(** *** requests *)

Definition requests_get (env : Env) (url : string)
           (headers : list (string * string)) : M Response :=
  fun w =>
    let rq := mkRequest url headers in
    let w' := mkWorld (sent w ++ [rq]) (sessions w) (clock w) in
    match http env w rq with
    | Answered r => (Return r, w')
    | TransportFailure reason => (Raise (RequestException reason), w')
    end.

(** [response.raise_for_status()]: client and server error codes raise. *)
Definition raise_for_status (r : Response) : M unit :=
  lift (if Nat.leb 400 (status_code r) && Nat.ltb (status_code r) 600
        then Raise (HTTPError (status_code r))
        else Return tt).

(** *** BeautifulSoup *)

(** [BeautifulSoup(markup, "html.parser")]: [bytes] are decoded first. *)
Definition BeautifulSoup (env : Env) (markup : Markup) : M Bs4.PageElement :=
  let document :=
    match markup with
    | Bytes b => unicode_dammit env b
    | Text s => s
    end in
  lift (match html_parser env document with
        | Some soup => Return soup
        | None => Raise ParserRejectedMarkup
        end).

(** *** selenium *)

Definition set_session (d : nat) (s : Session) (w : World) : World :=
  mkWorld (sent w) (<[d := s]> (sessions w)) (clock w).

(** [webdriver.Chrome(options=options)]: a new handle, or a failed launch. *)
Definition webdriver_Chrome (env : Env) (args : list string) : M nat :=
  fun w =>
    match chrome_launch env w with
    | Some reason => (Raise (WebDriverException reason), w)
    | None =>
        let d := fresh (dom (sessions w)) in
        (Return d, set_session d (mkSession true args None 0) w)
    end.

(** The live session behind a handle. *)
Definition session_of (d : nat) : M Session :=
  fun w =>
    match sessions w !! d with
    | Some s =>
        if alive s then (Return s, w)
        else (Raise (WebDriverException "invalid session id"), w)
    | None => (Raise (WebDriverException "invalid session id"), w)
    end.

(** [driver.get(url)] *)
Definition driver_get (env : Env) (d : nat) (url : string) : M unit :=
  bind (session_of d) (fun s w =>
    match navigation env w url with
    | Some reason => (Raise (WebDriverException reason), w)
    | None =>
        (Return tt,
         set_session d
           (mkSession (alive s) (arguments s) (Some url) (implicit_wait s)) w)
    end).

(** [driver.implicitly_wait(t)] *)
Definition driver_implicitly_wait (d : nat) (t : nat) : M unit :=
  bind (session_of d) (fun s w =>
    (Return tt,
     set_session d (mkSession (alive s) (arguments s) (current_url s) t) w)).

(** [time.sleep(t)] *)
Definition time_sleep (t : nat) : M unit :=
  fun w => (Return tt, mkWorld (sent w) (sessions w) (clock w + t)).

(** [driver.page_source] *)
Definition driver_page_source (env : Env) (d : nat) : M string :=
  bind (session_of d) (fun s w =>
    match current_url s with
    | Some url => (rendered env w url, w)
    | None => (Return "<html><head></head><body></body></html>", w)
    end).

(** [driver.quit()] *)
Definition driver_quit (d : nat) : M unit :=
  fun w =>
    match sessions w !! d with
    | Some s =>
        (Return tt,
         set_session d
           (mkSession false (arguments s) (current_url s) (implicit_wait s)) w)
    | None => (Return tt, w)
    end.

End Py.

Notation "x <- m ;; k" := (Py.bind m (fun x => k))
  (at level 100, m at next level, right associativity).
Notation "m ;;; k" := (Py.bind m (fun _ => k))
  (at level 100, right associativity).

(** ** week1/scraper.py *)

Import Bs4 Py.

(** Standard headers to fetch a website *)
Definition headers : list (string * string) :=
  [("User-Agent",
    "Mozilla/5.0 (Windows NT 10.0; Win64; x64) AppleWebKit/537.36 (KHTML, like Gecko) Chrome/117.0.0.0 Safari/537.36")].

(** The tag names handed to [soup.body([...])]. *)
Definition irrelevant_tags : list string := ["script"; "style"; "img"; "input"].

(** [for irrelevant in found: irrelevant.decompose()], acting on [soup]. *)
Definition decompose_each (found : list PageElement) (soup : PageElement)
  : PageElement :=
  fold_left (fun s irrelevant => decompose irrelevant s) found soup.

(** Lines 11-30. *)
Definition fetch_website_contents (env : Env) (url : string) : M string :=
  response <- requests_get env url headers ;;
  raise_for_status response ;;;
  soup <- BeautifulSoup env (Bytes (content response)) ;;
  let title :=
    match find "title" soup with
    | Some t => string_of t
    | None => Some "No title found"
    end in
  text <-
    match find "body" soup with
    | Some body =>
        let soup' := decompose_each (find_all irrelevant_tags body) soup in
        match find "body" soup' with
        | Some body' => ret (get_text PyStr.LF true body')
        | None => lift (Raise AttributeError)
        end
    | None => ret ""
    end ;;
  titled <- lift (add title (PyStr.LF +:+ PyStr.LF)) ;;
  ret (PyStr.slice_to 2000 (titled +:+ text)).

(** Lines 33-44. *)
Definition fetch_website_links (env : Env) (url : string)
  : M (list (option string)) :=
  response <- requests_get env url headers ;;
  raise_for_status response ;;;
  soup <- BeautifulSoup env (Bytes (content response)) ;;
  let links := map (get "href") (find_all ["a"] soup) in
  ret (List.filter truthy links).

Definition chrome_arguments : list string :=
  ["--headless=new"; "--no-sandbox"; "--disable-dev-shm-usage";
   "user-agent=" +:+ default "" (dict_get "User-Agent" headers)].

(** Lines 47-116.  [driver = None] is the absent handle. *)
Definition fetch_website_contents_selenium (env : Env) (url : string)
           (driver : option nat) (close_driver : bool) : M string :=
  acquired <-
    match driver with
    | None =>
        d <- webdriver_Chrome env chrome_arguments ;;
        ret (d, true)
    | Some d => ret (d, false)
    end ;;
  let '(driver, created_local_driver) := acquired in
  try_finally
    (driver_get env driver url ;;;
     driver_implicitly_wait driver 5 ;;;
     time_sleep 2 ;;;
     html <- driver_page_source env driver ;;
     soup <- BeautifulSoup env (Text html) ;;
     let title :=
       match find "title" soup with
       | Some t => string_of t
       | None => Some "No title found"
       end in
     text <-
       match find "body" soup with
       | Some body =>
           let soup' := decompose_each (find_all irrelevant_tags body) soup in
           match find "body" soup' with
           | Some body' => ret (get_text PyStr.LF true body')
           | None => lift (Raise AttributeError)
           end
       | None => ret ""
       end ;;
     titled <- lift (add title (PyStr.LF +:+ PyStr.LF)) ;;
     ret (PyStr.slice_to 2000 (titled +:+ text)))
    (if created_local_driver && close_driver then driver_quit driver
     else ret tt).

(** ** Concrete worlds for the scenarios *)

(** A site that answers every request with [status] and the UTF-8 bytes of
    [markup], decoded and parsed by the reference decoder and tree builder;
    the browser launches, navigates and reports [markup] as page source. *)
Definition static_site (status : nat) (markup : string) : Env :=
  mkEnv (fun _ _ => Answered (mkResponse status (Dammit.utf8_encode markup)))
        (fun m => Some (HtmlParser.BeautifulSoup m))
        Dammit.decode
        (fun _ => None)
        (fun _ _ => None)
        (fun _ _ => Return markup).

(** A site whose browser navigation fails. *)
Definition unreachable_site : Env :=
  mkEnv (fun _ _ => TransportFailure "connection refused")
        (fun m => Some (HtmlParser.BeautifulSoup m))
        Dammit.decode
        (fun _ => None)
        (fun _ _ => Some "net::ERR_CONNECTION_REFUSED")
        (fun _ _ => Return "").

Definition initial_world : World := mkWorld [] ∅ 0.

Definition dq : string := HtmlParser.one HtmlParser.DQ.

Definition scenario_page : string :=
  "<html><head><title>Hi</title></head><body><p> Hello </p><script>bad()</script></body></html>".

Definition scenario_links : string :=
  "<a href=" +:+ dq +:+ "/x" +:+ dq +:+ ">a</a><a>b</a><a href=" +:+ dq +:+ dq +:+ ">c</a>".

Definition scenario_empty_title : string := "<title></title>".

(** * Vocabulary of the properties *)

(** ** Object identity and pruning *)

(** The identities of the tags in a list of elements. *)
Definition tag_ids (l : list PageElement) : list nat :=
  flat_map (fun e => match e with Tag u _ _ _ => [u] | Str _ _ => [] end) l.

(** No two tag objects of the tree are the same object.  Python objects
    have this by construction; a tree that lacks it would describe aliasing
    that the parser never builds. *)
Definition distinct_objects (e : PageElement) : Prop :=
  NoDup (tag_ids (e :: descendants e)).

Definition in_ids (ids : list nat) (e : PageElement) : bool :=
  match e with
  | Str _ _ => false
  | Tag u _ _ _ => bool_decide (u ∈ ids)
  end.

(** The tree after all objects in [ids] were unlinked. *)
Fixpoint unlink_ids (ids : list nat) (e : PageElement) : PageElement :=
  match e with
  | Str k s => Str k s
  | Tag i n a cs =>
      Tag i n a
        (flat_map (fun c => if in_ids ids c then [] else [unlink_ids ids c]) cs)
  end.

(** The tree without its descendants called one of [names]. *)
Fixpoint prune (names : list string) (e : PageElement) : PageElement :=
  match e with
  | Str k s => Str k s
  | Tag i n a cs =>
      Tag i n a
        (flat_map (fun c => if tag_named names c then [] else [prune names c]) cs)
  end.

(** What [get_text(strip=True)] collects below [e] outside the elements
    called one of [names]: the strings of class [NavigableString] or [CData]
    (so no comments and none of the strings that belong to [script], [style],
    [template], [rt] or [rp]) that do not lie inside such an element, each
    stripped, the empty ones left out, in document order. *)
Fixpoint visible_strings (names : list string) (e : PageElement) : list string :=
  match e with
  | Str _ _ => []
  | Tag _ _ _ cs =>
      flat_map (fun c => if tag_named names c then []
                         else yield_string true c ++ visible_strings names c) cs
  end.

(** The text of one node as [get_text] reads it: only the strings of class
    [NavigableString] or [CData] count. *)
Definition own_text (c : PageElement) : list string :=
  match c with
  | Str k s => if interesting k then [s] else []
  | Tag _ _ _ _ => []
  end.

(** The raw text nodes below [e] outside the elements called one of [names],
    in document order. *)
Fixpoint text_nodes_outside (names : list string) (e : PageElement)
  : list string :=
  match e with
  | Str _ _ => []
  | Tag _ _ _ cs =>
      flat_map (fun c => if tag_named names c then []
                         else own_text c ++ text_nodes_outside names c) cs
  end.

(** ** The identities handed out by the reference tree builder *)

(** The identities of all tags in a forest. *)
Definition forest_ids (l : list PageElement) : list nat :=
  tag_ids (flat_map (fun c => c :: descendants c) l).

(** The identities of all tags the builder has created so far. *)
Definition builder_ids (b : HtmlParser.Builder) : list nat :=
  forest_ids (HtmlParser.document b)
  ++ flat_map (fun f => HtmlParser.f_uid f :: forest_ids (HtmlParser.f_contents f))
       (HtmlParser.tagStack b).

(** The builder has handed out the identities from 1 up to its counter. *)
Definition numbered (b : HtmlParser.Builder) : Prop :=
  1 <= HtmlParser.next_uid b /\
  builder_ids b ≡ₚ seq 1 (HtmlParser.next_uid b - 1).

(** A builder step that creates no tag. *)
Definition same_ids (b b' : HtmlParser.Builder) : Prop :=
  HtmlParser.next_uid b' = HtmlParser.next_uid b /\
  builder_ids b' ≡ₚ builder_ids b.

(** ** The values computed by the plain fetch *)

(** The values lines 21-30 compute from the parsed [soup]. *)
Definition title_of (soup : PageElement) : option string :=
  match find "title" soup with
  | Some t => string_of t
  | None => Some "No title found"
  end.

Definition text_of (soup : PageElement) : Result string :=
  match find "body" soup with
  | Some body =>
      match find "body" (decompose_each (find_all irrelevant_tags body) soup) with
      | Some body' => Return (get_text PyStr.LF true body')
      | None => Raise AttributeError
      end
  | None => Return ""
  end.

Definition extract_text (soup : PageElement) : Result string :=
  match text_of soup with
  | Raise e => Raise e
  | Return text =>
      match title_of soup with
      | Some title =>
          Return (PyStr.slice_to 2000 ((title +:+ PyStr.LF +:+ PyStr.LF) +:+ text))
      | None => Raise TypeError
      end
  end.

(** Client and server error codes, the ones [raise_for_status] rejects. *)
Definition error_status (code : nat) : bool :=
  Nat.leb 400 code && Nat.ltb code 600.

(** The world once the request for [url] has gone out. *)
Definition requested (url : string) (w : World) : World :=
  mkWorld (sent w ++ [mkRequest url headers]) (sessions w) (clock w).

(** The exceptions of [requests]. *)
Definition is_FetchError (e : Exception) : bool :=
  match e with
  | HTTPError _ | RequestException _ => true
  | _ => false
  end.

(** What one run of a plain fetch for [url] from the world [w] did:
    [requests.get] was called once, and the run failed with an exception of
    [requests] exactly on a transport failure or an answer with an error
    status. *)
Definition fetch_outcome {A} (env : Env) (url : string) (w : World)
           (run : Result A * World) : Prop :=
  let rq := mkRequest url headers in
  sent (snd run) = sent w ++ [rq] /\
  ((exists e, fst run = Raise e /\ is_FetchError e = true) <->
   (exists reason, http env w rq = TransportFailure reason) \/
   (exists resp, http env w rq = Answered resp /\
                 400 <= status_code resp < 600)) /\
  (forall reason, http env w rq = TransportFailure reason ->
                  fst run = Raise (RequestException reason)) /\
  (forall resp, http env w rq = Answered resp ->
                400 <= status_code resp < 600 ->
                fst run = Raise (HTTPError (status_code resp))).

(** ** The link extractor in the words of its description *)

(** The non-empty href of an anchor element, if it has one. *)
Definition own_href (e : PageElement) : list string :=
  match e with
  | Str _ _ => []
  | Tag _ n a _ =>
      if String.eqb n "a" then
        match dict_get "href" a with
        | Some h => if PyStr.nonempty h then [h] else []
        | None => []
        end
      else []
  end.

(** The link extractor in the words of its description: walk the document in
    order and keep the href of every anchor that has a non-empty one. *)
Fixpoint anchor_hrefs (e : PageElement) : list string :=
  match e with
  | Str _ _ => []
  | Tag _ _ _ cs => flat_map (fun c => own_href c ++ anchor_hrefs c) cs
  end.

(** ** The parts of the rendered fetch *)

(** The body of the [try] block (lines 92-113) on the handle [d]. *)
Definition rendered_fetch (env : Env) (url : string) (d : nat) : M string :=
  driver_get env d url ;;;
  driver_implicitly_wait d 5 ;;;
  time_sleep 2 ;;;
  html <- driver_page_source env d ;;
  soup <- BeautifulSoup env (Text html) ;;
  let title :=
    match find "title" soup with
    | Some t => string_of t
    | None => Some "No title found"
    end in
  text <-
    match find "body" soup with
    | Some body =>
        let soup' := decompose_each (find_all irrelevant_tags body) soup in
        match find "body" soup' with
        | Some body' => ret (get_text PyStr.LF true body')
        | None => lift (Raise AttributeError)
        end
    | None => ret ""
    end ;;
  titled <- lift (add title (PyStr.LF +:+ PyStr.LF)) ;;
  ret (PyStr.slice_to 2000 (titled +:+ text)).

(** The [finally] block (lines 114-116). *)
Definition cleanup (created_local_driver close_driver : bool) (d : nat) : M unit :=
  if created_local_driver && close_driver then driver_quit d else ret tt.

(** The session [s] after navigation to [url] and the implicit wait. *)
Definition visiting (url : string) (s : Session) : Session :=
  mkSession (alive s) (arguments s) (Some url) 5.

(** The world in which the page source is read. *)
Definition rendered_world (url : string) (d : nat) (s : Session) (w : World)
  : World :=
  mkWorld (sent w)
          (<[d := visiting url s]>
             (<[d := mkSession (alive s) (arguments s) (Some url) (implicit_wait s)]>
                (sessions w)))
          (clock w + 2).

(** The world right after a browser was launched on the handle [d]. *)
Definition launched (d : nat) (w : World) : World :=
  set_session d (mkSession true chrome_arguments None 0) w.

(** ** Scenario pages *)

(** [s * n] *)
Fixpoint times (s : string) (n : nat) : string :=
  match n with
  | O => ""
  | S m => s +:+ times s m
  end.

(** A page whose title has [n] characters and that has no body. *)
Definition long_title_page (n : nat) : string :=
  "<title>" +:+ times "a" n +:+ "</title>".

(** A page whose title has [n] characters, with a body. *)
Definition long_title_body_page (n : nat) : string :=
  "<html><head><title>" +:+ times "a" n +:+ "</title></head><body><p>text</p></body></html>".

Definition repeated_text_page : string :=
  "<body><p>bad()</p><script>bad()</script></body>".

Definition spaced_page : string :=
  "<body> <p>  one </p>   <p> two</p> </body>".

(** The character with the Latin-1 code [n]. *)
Definition latin1_char (n : nat) : string := String (ascii_of_nat n) EmptyString.

(** A page whose title has an accented letter and whose markup declares an
    encoding other than the UTF-8 it is served in. *)
Definition mislabelled_page : string :=
  "<html><head>" +:+ Dammit.latin1_declaration +:+ "><title>caf"
  +:+ latin1_char 233 +:+ "</title></head><body><p>x</p></body></html>".

Definition duplicate_links_page : string :=
  "<p><a href='/b'>one</a></p><a href='/a'>two</a><a href='/b'>three</a>".

(** The raw text of every string node below [e], whatever its class. *)
Definition text_content (e : PageElement) : string :=
  String.concat ""
    (flat_map (fun d => match d with Str _ s => [s] | Tag _ _ _ _ => [] end)
       (descendants e)).

(** * Properties *)

(** ** Strings *)

Lemma append_cons x (a b : string) : String x a +:+ b = String x (a +:+ b).
Proof. reflexivity. Qed.

Lemma append_nil (b : string) : EmptyString +:+ b = b.
Proof. reflexivity. Qed.

Lemma slice_to_length n s : String.length (PyStr.slice_to n s) = min n (String.length s).
Proof.
  revert s; induction n as [|n IH]; intros [|c r]; simpl; auto.
Qed.

Lemma slice_to_le n s : String.length (PyStr.slice_to n s) <= n.
Proof. rewrite slice_to_length. lia. Qed.

Lemma slice_to_short n s : String.length s <= n -> PyStr.slice_to n s = s.
Proof.
  revert s; induction n as [|n IH]; intros [|c r]; simpl; intros H; auto.
  - lia.
  - f_equal. apply IH. lia.
Qed.

Lemma slice_to_prefix n s : String.prefix (PyStr.slice_to n s) s = true.
Proof.
  revert s; induction n as [|n IH]; intros [|c r]; simpl; auto.
  rewrite IH. destruct (ascii_dec c c); congruence.
Qed.

Lemma prefix_app p s : String.prefix p (p +:+ s) = true.
Proof.
  induction p as [|c p IH].
  - by destruct s.
  - rewrite append_cons. simpl. rewrite IH.
    destruct (ascii_dec c c); congruence.
Qed.

Lemma string_app_length (a b : string) :
  String.length (a +:+ b) = String.length a + String.length b.
Proof.
  induction a as [|x a IH]; [done|].
  rewrite append_cons. simpl. by rewrite IH.
Qed.

Lemma string_app_assoc (a b c : string) : (a +:+ b) +:+ c = a +:+ (b +:+ c).
Proof.
  induction a as [|x a IH]; [done|].
  by rewrite !append_cons, IH.
Qed.

(** A slice that covers the first part keeps it whole. *)
Lemma slice_to_app n p s :
  String.length p <= n ->
  PyStr.slice_to n (p +:+ s) = p +:+ PyStr.slice_to (n - String.length p) s.
Proof.
  revert n; induction p as [|c p IH]; intros n H.
  - rewrite append_nil. simpl. by rewrite Nat.sub_0_r.
  - simpl in H. destruct n as [|n]; [lia|].
    rewrite !append_cons. simpl. f_equal. apply IH. lia.
Qed.

(** ** Document trees *)

Lemma PageElement_tree_ind (P : PageElement -> Prop) :
  (forall k s, P (Str k s)) ->
  (forall u n a cs, Forall P cs -> P (Tag u n a cs)) ->
  forall e, P e.
Proof.
  intros HS HT. fix IH 1. intros [k s|u n a cs]; [apply HS|].
  apply HT. induction cs as [|c cs IHcs]; constructor; [apply IH | apply IHcs].
Qed.

Lemma tag_ids_app l k : tag_ids (l ++ k) = tag_ids l ++ tag_ids k.
Proof. apply flat_map_app. Qed.

Lemma tag_ids_incl l k : (forall x, In x l -> In x k) ->
  forall u, u ∈ tag_ids l -> u ∈ tag_ids k.
Proof.
  intros H u. rewrite !list_elem_of_In. unfold tag_ids.
  rewrite !in_flat_map. intros (x & Hx & Hu). exists x. auto.
Qed.

Lemma in_descendants_child c cs u n a d :
  In c cs -> In d (c :: descendants c) -> In d (descendants (Tag u n a cs)).
Proof. intros Hc Hd. simpl. apply in_flat_map. eauto. Qed.

(** Descendants of a descendant are descendants. *)
Lemma descendants_trans e : forall b d,
  In b (descendants e) -> In d (descendants b) -> In d (descendants e).
Proof.
  induction e as [k s|u n a cs IH] using PageElement_tree_ind; intros b d Hb Hd.
  - destruct Hb.
  - simpl in Hb. apply in_flat_map in Hb as (c & Hc & Hb).
    apply (in_descendants_child c); [done|].
    rewrite Forall_forall in IH.
    destruct Hb as [->|Hb]; [by right|].
    right. eapply IH; eauto. by apply list_elem_of_In.
Qed.

Lemma unlink_ids_ext S S' e :
  (forall u, u ∈ S <-> u ∈ S') -> unlink_ids S e = unlink_ids S' e.
Proof.
  intros HS. induction e as [k s|u n a cs IH] using PageElement_tree_ind; [done|].
  simpl. f_equal. induction IH as [|c cs Hc _ IHcs]; [done|].
  simpl. rewrite IHcs, Hc. f_equal.
  destruct c as [|i ? ? ?]; simpl; [done|].
  by rewrite (bool_decide_ext _ _ (HS i)).
Qed.

Lemma unlink_ids_id S e :
  (forall d, In d (descendants e) -> in_ids S d = false) -> unlink_ids S e = e.
Proof.
  induction e as [k s|u n a cs IH] using PageElement_tree_ind; intros H; [done|].
  simpl. f_equal.
  assert (Hc : forall c d, In c cs -> In d (c :: descendants c) -> in_ids S d = false).
  { intros c d Hc Hd. apply H. by apply (in_descendants_child c). }
  clear H. induction IH as [|c cs IHc _ IHcs]; [done|].
  simpl. rewrite (Hc c c); [|by left|by left].
  rewrite IHc; [|intros d Hd; apply (Hc c); [by left|by right]].
  simpl. f_equal. apply IHcs. intros c' d Hc' Hd. apply (Hc c'); [by right|done].
Qed.

Lemma is_object_unlink_ids S u c : is_object u (unlink_ids S c) = is_object u c.
Proof. by destruct c. Qed.

Lemma unlink_unlink_ids u S e : unlink u (unlink_ids S e) = unlink_ids (u :: S) e.
Proof.
  induction e as [k s|i n a cs IH] using PageElement_tree_ind; [done|].
  simpl. f_equal. induction IH as [|c cs Hc _ IHcs]; [done|].
  simpl. rewrite flat_map_app, IHcs. f_equal.
  destruct (in_ids S c) eqn:HS.
  - destruct c as [|j ? ? ?]; simpl in *; [done|].
    apply bool_decide_eq_true in HS.
    rewrite bool_decide_eq_true_2; [done|]. by right.
  - simpl. rewrite is_object_unlink_ids, Hc.
    destruct c as [|j ? ? ?]; simpl in *; [done|].
    apply bool_decide_eq_false in HS.
    destruct (Nat.eqb_spec j u) as [->|Hne].
    + rewrite bool_decide_eq_true_2; [done|]. by left.
    + rewrite bool_decide_eq_false_2; [done|].
      rewrite elem_of_cons. intros [?|?]; congruence.
Qed.

(** The loop over the found elements unlinks exactly their objects. *)
Lemma decompose_each_unlink_ids found soup :
  decompose_each found soup = unlink_ids (tag_ids found) soup.
Proof.
  assert (G : forall S, decompose_each found (unlink_ids S soup)
                        = unlink_ids (tag_ids found ++ S) soup).
  { induction found as [|d l IH]; intros S; [done|].
    unfold decompose_each in *. simpl fold_left.
    destruct d as [k s|u n a cs]; simpl decompose.
    - apply IH.
    - rewrite unlink_unlink_ids, IH. apply unlink_ids_ext. intros x.
      change (tag_ids (Tag u n a cs :: l)) with (u :: tag_ids l).
      rewrite !elem_of_app, !elem_of_cons. tauto. }
  specialize (G []). rewrite app_nil_r in G. rewrite <- G. f_equal.
  symmetry. apply unlink_ids_id. by intros [] _.
Qed.

Lemma unlink_ids_prune S names e :
  (forall d, In d (descendants e) -> in_ids S d = tag_named names d) ->
  unlink_ids S e = prune names e.
Proof.
  induction e as [k s|u n a cs IH] using PageElement_tree_ind; intros H; [done|].
  simpl. f_equal.
  assert (Hc : forall c d, In c cs -> In d (c :: descendants c) ->
                           in_ids S d = tag_named names d).
  { intros c d Hc Hd. apply H. by apply (in_descendants_child c). }
  clear H. induction IH as [|c cs IHc _ IHcs]; [done|].
  simpl. rewrite (Hc c c); [|by left|by left].
  rewrite IHc; [|intros d Hd; apply (Hc c); [by left|by right]].
  f_equal. apply IHcs. intros c' d Hc' Hd. apply (Hc c'); [by right|done].
Qed.

(** An identity names one object of the tree. *)
Lemma tag_ids_inj l u n a cs n' a' cs' :
  NoDup (tag_ids l) -> In (Tag u n a cs) l -> In (Tag u n' a' cs') l ->
  Tag u n a cs = Tag u n' a' cs'.
Proof.
  assert (Hin : forall r m b ds, In (Tag u m b ds) r -> u ∈ tag_ids r).
  { intros r m b ds Hr. apply list_elem_of_In, in_flat_map.
    eexists; split; [exact Hr | by left]. }
  induction l as [|x l IH]; intros Hnd H1 H2; [destruct H1|].
  change (x :: l) with ([x] ++ l) in Hnd. rewrite tag_ids_app in Hnd.
  apply NoDup_app in Hnd as (_ & Hdisj & Hnd).
  destruct H1 as [->|H1], H2 as [E|H2].
  - done.
  - exfalso. apply (Hdisj u); [by left | eauto].
  - subst x. exfalso. apply (Hdisj u); [by left | eauto].
  - by apply IH.
Qed.

Lemma head_filter_In {A} (p : A -> bool) l b :
  head (List.filter p l) = Some b -> In b l /\ p b = true.
Proof.
  intros H. apply List.filter_In.
  destruct (List.filter p l) as [|x r]; [done|].
  injection H as ->. by left.
Qed.

(** What the loop unlinks: the descendants of [body] called [names]. *)
Lemma found_ids names body all :
  NoDup (tag_ids all) ->
  (forall d, In d (descendants body) -> In d all) ->
  forall d, In d (descendants body) ->
    in_ids (tag_ids (find_all names body)) d = tag_named names d.
Proof.
  intros Hnd Hall [k s|u n a cs] Hd; [done|]. simpl.
  apply bool_decide_ext. split.
  - intros Hu. apply list_elem_of_In, in_flat_map in Hu as (d' & Hd' & Hu).
    apply List.filter_In in Hd' as [Hd' Hp].
    destruct d' as [|u' n' a' cs']; [destruct Hu|].
    destruct Hu as [<-|[]].
    assert (E := tag_ids_inj _ _ _ _ _ _ _ _ Hnd (Hall _ Hd) (Hall _ Hd')).
    injection E as -> _ _. simpl in Hp. by apply bool_decide_eq_true in Hp.
  - intros Hn. apply list_elem_of_In, in_flat_map.
    exists (Tag u n a cs). split; [|by left].
    apply List.filter_In. split; [done|]. simpl. by apply bool_decide_eq_true.
Qed.

Lemma tag_named_unlink_ids names S c :
  tag_named names (unlink_ids S c) = tag_named names c.
Proof. by destruct c. Qed.

Lemma head_app_Some {A} (l k : list A) x : head l = Some x -> head (l ++ k) = Some x.
Proof. by destruct l. Qed.

(** The first match below a forest survives unlinking objects inside it. *)
Lemma find_unlink_forest names S cs :
  Forall (fun e => forall b,
            NoDup (tag_ids (descendants e)) ->
            head (List.filter (tag_named names) (descendants e)) = Some b ->
            (forall u, u ∈ S -> u ∈ tag_ids (descendants b)) ->
            head (List.filter (tag_named names) (descendants (unlink_ids S e)))
            = Some (unlink_ids S b)) cs ->
  forall b,
    NoDup (tag_ids (flat_map (fun c => c :: descendants c) cs)) ->
    head (List.filter (tag_named names)
            (flat_map (fun c => c :: descendants c) cs)) = Some b ->
    (forall u, u ∈ S -> u ∈ tag_ids (descendants b)) ->
    head (List.filter (tag_named names)
            (flat_map (fun c => c :: descendants c)
               (flat_map (fun c => if in_ids S c then [] else [unlink_ids S c]) cs)))
    = Some (unlink_ids S b).
Proof.
  induction 1 as [|c cs Qc _ IH]; intros b Hnd Hb HS; [done|].
  cbn [flat_map] in Hnd, Hb.
  change (tag_ids ((c :: descendants c) ++ ?l))
    with (tag_ids ([c] ++ descendants c ++ l)) in Hnd.
  rewrite !tag_ids_app in Hnd.
  apply NoDup_app in Hnd as (_ & Hc & Hnd).
  apply NoDup_app in Hnd as (Hndc & Hdc & Hndr).
  set (rest := flat_map (fun c => c :: descendants c) cs) in *.
  assert (Hkeep : (forall u, u ∈ S -> u ∉ tag_ids [c]) -> in_ids S c = false).
  { intros H. destruct c as [|i n a k]; [done|]. simpl.
    apply bool_decide_eq_false. intros Hi. apply (H i Hi). by left. }
  cbn [List.filter app] in Hb. rewrite (List.filter_app _ (descendants c)) in Hb.
  destruct (tag_named names c) eqn:Hp.
  - (* the first match is [c] itself *)
    injection Hb as <-.
    cbn [flat_map]. rewrite Hkeep by (intros u Hu Hi; apply (Hc u Hi);
      rewrite elem_of_app; left; auto).
    cbn. by rewrite tag_named_unlink_ids, Hp.
  - destruct (List.filter (tag_named names) (descendants c)) as [|b' m] eqn:Hf.
    + (* the first match is further right *)
      cbn [app] in Hb.
      destruct (head_filter_In _ _ _ Hb) as [Hbin _].
      assert (Hsub : forall u, u ∈ S -> u ∈ tag_ids rest).
      { intros u Hu. apply (tag_ids_incl (descendants b)); [|auto].
        intros d Hd.
        apply (descendants_trans (Tag 0 EmptyString [] cs) b d); done. }
      assert (Hid : unlink_ids S c = c).
      { apply unlink_ids_id. intros [|j ? ? ?] Hd; [done|]. simpl.
        apply bool_decide_eq_false. intros Hj. apply (Hdc j); [|auto].
        apply list_elem_of_In, in_flat_map. eexists; split; [exact Hd|by left]. }
      cbn [flat_map]. rewrite Hkeep by (intros u Hu Hi; apply (Hc u Hi);
        rewrite elem_of_app; right; auto).
      rewrite Hid. cbn [app flat_map List.filter]. rewrite Hp.
      rewrite List.filter_app, Hf. cbn [app]. by apply IH.
    + (* the first match is below [c] *)
      injection Hb as <-.
      assert (Hbin : In b' (descendants c)).
      { eapply (head_filter_In (tag_named names)). by rewrite Hf. }
      assert (Hsub : forall u, u ∈ S -> u ∈ tag_ids (descendants c)).
      { intros u Hu. apply (tag_ids_incl (descendants b')); [|auto].
        intros d Hd. by apply (descendants_trans c b' d). }
      cbn [flat_map]. rewrite Hkeep by (intros u Hu Hi; apply (Hc u Hi);
        rewrite elem_of_app; left; auto).
      cbn [app flat_map List.filter]. rewrite tag_named_unlink_ids, Hp.
      rewrite List.filter_app. apply head_app_Some.
      by apply Qc.
Qed.

(** The first match below an element survives unlinking objects inside it. *)
Lemma find_unlink_ids names S e : forall b,
  NoDup (tag_ids (descendants e)) ->
  head (List.filter (tag_named names) (descendants e)) = Some b ->
  (forall u, u ∈ S -> u ∈ tag_ids (descendants b)) ->
  head (List.filter (tag_named names) (descendants (unlink_ids S e)))
  = Some (unlink_ids S b).
Proof.
  induction e as [k s|i n a cs IH] using PageElement_tree_ind; intros b; [done|].
  simpl. by apply find_unlink_forest.
Qed.

(** Collecting the text of a pruned element skips what was pruned. *)
Lemma all_strings_prune names e :
  all_strings true (prune names e) = visible_strings names e.
Proof.
  unfold all_strings.
  induction e as [k s|i n a cs IH] using PageElement_tree_ind; [done|].
  simpl. induction IH as [|c cs Hc _ IHcs]; [done|].
  simpl. destruct (tag_named names c); [done|].
  simpl. rewrite flat_map_app, Hc, IHcs, <- app_assoc.
  by destruct c.
Qed.

(** After the loop, [soup.body] is the body without its irrelevant
    descendants. *)
Lemma body_after_decompose soup body :
  distinct_objects soup ->
  find "body" soup = Some body ->
  find "body" (decompose_each (find_all irrelevant_tags body) soup)
  = Some (prune irrelevant_tags body).
Proof.
  unfold distinct_objects, find. intros Hnd Hbody.
  change (soup :: descendants soup) with ([soup] ++ descendants soup) in Hnd.
  rewrite tag_ids_app in Hnd. apply NoDup_app in Hnd as (_ & _ & Hnd).
  destruct (head_filter_In _ _ _ Hbody) as [Hin _].
  rewrite decompose_each_unlink_ids. unfold find_all at 1.
  rewrite (find_unlink_ids _ _ _ body Hnd Hbody).
  - f_equal. apply unlink_ids_prune.
    apply (found_ids _ _ (descendants soup)); [done|].
    intros d Hd. by apply (descendants_trans soup body d).
  - apply tag_ids_incl. intros d Hd. by apply List.filter_In in Hd as [Hd _].
Qed.

(** ** The reference tree builder *)

Lemma forest_ids_app l k : forest_ids (l ++ k) = forest_ids l ++ forest_ids k.
Proof. unfold forest_ids. by rewrite flat_map_app, tag_ids_app. Qed.

Lemma forest_ids_tag u n a cs : forest_ids [Tag u n a cs] = u :: forest_ids cs.
Proof. unfold forest_ids. simpl. by rewrite app_nil_r. Qed.

Lemma same_ids_refl b : same_ids b b.
Proof. by split. Qed.

Lemma same_ids_trans b1 b2 b3 : same_ids b1 b2 -> same_ids b2 b3 -> same_ids b1 b3.
Proof. intros [H1 P1] [H2 P2]. split; [congruence|]. by rewrite P2. Qed.

Lemma numbered_same b b' : same_ids b b' -> numbered b -> numbered b'.
Proof. intros [Hn Hp] [H1 H2]. split; rewrite Hn; [done|]. by rewrite Hp. Qed.

Lemma shuffle_child (A B C R : list nat) u :
  A ++ u :: (B ++ C) ++ R ≡ₚ C ++ A ++ u :: B ++ R.
Proof.
  transitivity ((A ++ u :: B ++ R) ++ C); [|apply Permutation_app_comm].
  rewrite <- !app_assoc. simpl. rewrite <- !app_assoc.
  apply Permutation_app_head. constructor.
  apply Permutation_app_head, Permutation_app_comm.
Qed.

Lemma shuffle_frame (A B R : list nat) u :
  (u :: B) ++ A ++ R ≡ₚ A ++ u :: B ++ R.
Proof.
  rewrite app_assoc, (Permutation_app_comm (u :: B) A), <- app_assoc. done.
Qed.

Section Builder.
Import HtmlParser.

Lemma append_child_ids c b :
  next_uid (append_child c b) = next_uid b /\
  builder_ids (append_child c b) ≡ₚ forest_ids [c] ++ builder_ids b.
Proof.
  unfold append_child, builder_ids.
  destruct (tagStack b) as [|f r]; simpl; (split; [done|]).
  - rewrite forest_ids_app, !app_nil_r. apply Permutation_app_comm.
  - rewrite forest_ids_app. apply shuffle_child.
Qed.

Lemma append_string_same k s b : same_ids b (append_child (Str k s) b).
Proof. destruct (append_child_ids (Str k s) b) as [H1 H2]. by split. Qed.

Lemma endData_same b : same_ids b (endData b).
Proof.
  unfold endData. destruct (current_data b); [apply same_ids_refl|].
  eapply same_ids_trans; [|apply append_string_same]. by split.
Qed.

Lemma popTag_same b : same_ids b (popTag b).
Proof.
  unfold popTag. destruct (tagStack b) as [|f r] eqn:Hs; [apply same_ids_refl|].
  destruct (append_child_ids
              (Tag (f_uid f) (f_name f) (f_attrs f) (f_contents f))
              (mkBuilder (current_data b) r (document b)
                 (already_closed_empty_element b) (next_uid b))) as [H1 H2].
  split; [done|]. rewrite H2, forest_ids_tag.
  unfold builder_ids. rewrite Hs. simpl. apply shuffle_frame.
Qed.

Lemma popToTag_from_same n stack : forall b, same_ids b (popToTag_from n stack b).
Proof.
  induction stack as [|f r IH]; intros b; simpl; [apply same_ids_refl|].
  destruct (String.eqb (f_name f) n); [apply popTag_same|].
  eapply same_ids_trans; [apply popTag_same | apply IH].
Qed.

Lemma soup_handle_endtag_same n b : same_ids b (soup_handle_endtag n b).
Proof.
  unfold soup_handle_endtag, popToTag.
  eapply same_ids_trans; [apply endData_same|].
  destruct (existsb _ _); [apply popToTag_from_same | apply same_ids_refl].
Qed.

Lemma close_all_same stack : forall b, same_ids b (close_all stack b).
Proof.
  induction stack as [|f r IH]; intros b; simpl; [apply same_ids_refl|].
  eapply same_ids_trans; [apply popTag_same | apply IH].
Qed.

Lemma pushTag_numbered n a b : numbered b -> numbered (pushTag n a b).
Proof.
  intros [H1 H2]. split; simpl; [lia|].
  unfold builder_ids in *. simpl. rewrite <- Permutation_middle, H2.
  replace (next_uid b - 0) with (S (next_uid b - 1)) by lia.
  rewrite seq_S, <- Permutation_cons_append.
  replace (1 + (next_uid b - 1)) with (next_uid b) by lia. done.
Qed.

Lemma feed_token_numbered b t : numbered b -> numbered (feed_token b t).
Proof.
  intros Hb. destruct t as [n a se|n|d]; simpl.
  - unfold handle_starttag.
    assert (Hp : numbered (pushTag n a (endData b))).
    { apply pushTag_numbered. eapply numbered_same; [apply endData_same|done]. }
    destruct se; [eapply numbered_same; [apply soup_handle_endtag_same|done]|].
    destruct (bool_decide _); [|done].
    eapply numbered_same; [|exact Hp].
    eapply same_ids_trans; [apply soup_handle_endtag_same|]. by split.
  - unfold handle_endtag. destruct (bool_decide _).
    + eapply numbered_same; [|exact Hb]. by split.
    + eapply numbered_same; [apply soup_handle_endtag_same|done].
  - eapply numbered_same; [|exact Hb]. by split.
Qed.

Lemma feed_numbered tokens : forall b,
  numbered b -> numbered (fold_left feed_token tokens b).
Proof.
  induction tokens as [|t l IH]; intros b Hb; [done|].
  simpl. apply IH. by apply feed_token_numbered.
Qed.

End Builder.

(** The reference tree builder never uses an identity twice. *)
Lemma reference_parser_distinct markup :
  distinct_objects (HtmlParser.BeautifulSoup markup).
Proof.
  unfold HtmlParser.BeautifulSoup, distinct_objects, BeautifulSoup_object.
  set (b1 := HtmlParser.endData _).
  set (bf := HtmlParser.close_all _ _).
  assert (Hbf : numbered bf).
  { eapply numbered_same; [apply close_all_same|].
    eapply numbered_same; [apply endData_same|].
    apply feed_numbered. split; [simpl; lia|done]. }
  destruct Hbf as [H1 H2].
  change (NoDup (0 :: forest_ids (HtmlParser.document bf))).
  assert (Hsub : forall u, u ∈ forest_ids (HtmlParser.document bf) ->
                           u ∈ seq 1 (HtmlParser.next_uid bf - 1)).
  { intros u Hu. rewrite <- H2. unfold builder_ids. apply elem_of_app. by left. }
  apply NoDup_cons. split.
  - intros H0. apply Hsub, elem_of_seq in H0. lia.
  - assert (Hnd : NoDup (builder_ids bf)) by (rewrite H2; apply NoDup_seq).
    unfold builder_ids in Hnd. by apply NoDup_app in Hnd as [Hnd _].
Qed.

(** ** The plain fetch, step by step *)

Lemma fetch_website_contents_run env url w :
  fetch_website_contents env url w =
  match http env w (mkRequest url headers) with
  | TransportFailure reason => (Raise (RequestException reason), requested url w)
  | Answered r =>
      if error_status (status_code r)
      then (Raise (HTTPError (status_code r)), requested url w)
      else match html_parser env (unicode_dammit env (content r)) with
           | None => (Raise ParserRejectedMarkup, requested url w)
           | Some soup => (extract_text soup, requested url w)
           end
  end.
Proof.
  unfold fetch_website_contents, requests_get, raise_for_status,
    BeautifulSoup, bind, lift, ret, requested, error_status.
  destruct (http env w _) as [r|reason]; [|done].
  destruct (_ && _); [done|].
  destruct (html_parser env _) as [soup|]; [|done].
  unfold extract_text, text_of, title_of, add.
  destruct (find "body" soup) as [body|].
  - destruct (find "body" (decompose_each _ _)); [|done].
    by destruct (match find "title" soup with Some _ => _ | None => _ end).
  - by destruct (match find "title" soup with Some _ => _ | None => _ end).
Qed.

Lemma fetch_website_links_run env url w :
  fetch_website_links env url w =
  match http env w (mkRequest url headers) with
  | TransportFailure reason => (Raise (RequestException reason), requested url w)
  | Answered r =>
      if error_status (status_code r)
      then (Raise (HTTPError (status_code r)), requested url w)
      else match html_parser env (unicode_dammit env (content r)) with
           | None => (Raise ParserRejectedMarkup, requested url w)
           | Some soup =>
               (Return (List.filter truthy (map (get "href") (find_all ["a"] soup))),
                requested url w)
           end
  end.
Proof.
  unfold fetch_website_links, requests_get, raise_for_status,
    BeautifulSoup, bind, lift, ret, requested, error_status.
  destruct (http env w _) as [r|reason]; [|done].
  destruct (_ && _); [done|].
  by destruct (html_parser env _) as [soup|].
Qed.

(** On a tree of distinct objects the body text is the text outside the
    irrelevant elements. *)
Lemma text_of_distinct soup body :
  distinct_objects soup ->
  find "body" soup = Some body ->
  text_of soup
  = Return (PyStr.join PyStr.LF (visible_strings irrelevant_tags body)).
Proof.
  intros Hd Hb. unfold text_of. rewrite Hb.
  rewrite (body_after_decompose soup body Hd Hb).
  unfold get_text. by rewrite all_strings_prune.
Qed.

Lemma text_of_no_body soup : find "body" soup = None -> text_of soup = Return "".
Proof. intros Hb. unfold text_of. by rewrite Hb. Qed.

(** ** The claims about [fetch_website_contents] *)

(** C1. Every string [fetch_website_contents] returns has at most 2000
    characters: it is the concatenation [title + "\n\n" + text] cut after
    2000 characters, a prefix of the concatenation whose length is the
    smaller of 2000 and the length of the concatenation. *)
Theorem contents_at_most_2000 env url w s w' :
  fetch_website_contents env url w = (Return s, w') ->
  String.length s <= 2000 /\
  exists resp soup title text,
    http env w (mkRequest url headers) = Answered resp /\
    html_parser env (unicode_dammit env (content resp)) = Some soup /\
    title_of soup = Some title /\
    text_of soup = Return text /\
    let joined := (title +:+ PyStr.LF +:+ PyStr.LF) +:+ text in
    s = PyStr.slice_to 2000 joined /\
    String.length s = min 2000 (String.length joined) /\
    PyStr.startswith s joined = true.
Proof.
  rewrite fetch_website_contents_run.
  destruct (http env w _) as [resp|reason] eqn:Hh; [|discriminate].
  destruct (error_status _); [discriminate|].
  destruct (html_parser env _) as [soup|] eqn:Hp; [|discriminate].
  unfold extract_text.
  destruct (text_of soup) as [text|] eqn:Ht; [|discriminate].
  destruct (title_of soup) as [title|] eqn:Hti; [|discriminate].
  intros H.
  assert (Hs : s = PyStr.slice_to 2000 ((title +:+ PyStr.LF +:+ PyStr.LF) +:+ text))
    by congruence.
  subst s. split; [apply slice_to_le|].
  exists resp, soup, title, text. repeat split; auto.
  - apply slice_to_length.
  - apply slice_to_prefix.
Qed.

Lemma contents_at_most_2000_witness :
  fetch_website_contents (static_site 200 (long_title_body_page 3000)) "u"
    initial_world
  = (Return (times "a" 2000), requested "u" initial_world)
  /\ String.length (times "a" 2000) <= 2000.
Proof.
  split; [vm_compute; reflexivity|].
  apply (contents_at_most_2000 (static_site 200 (long_title_body_page 3000))
           "u" initial_world (times "a" 2000) (requested "u" initial_world)).
  vm_compute; reflexivity.
Defined.

(** C9. On the page
    [<html><head><title>Hi</title></head><body><p> Hello </p><script>bad()</script></body></html>]
    the extraction returns exactly [Hi], two line feeds, [Hello]. *)
Theorem scenario_page_text url w :
  fst (fetch_website_contents (static_site 200 scenario_page) url w)
  = Return ("Hi" +:+ PyStr.LF +:+ PyStr.LF +:+ "Hello").
Proof. rewrite fetch_website_contents_run. vm_compute. reflexivity. Qed.

(** C10. There is a page with a title element, the empty [<title></title>],
    on which [fetch_website_contents] returns no string: the title value is
    [None] and the concatenation raises [TypeError] instead of falling back to
    [No title found].  The same holds for every page whose title element has
    no string. *)
Theorem empty_title_raises_TypeError :
  (find "title" (HtmlParser.BeautifulSoup scenario_empty_title)
   = Some (Tag 1 "title" [] []) /\
   string_of (Tag 1 "title" [] []) = None /\
   forall url w,
     fst (fetch_website_contents (static_site 200 scenario_empty_title) url w)
     = Raise TypeError) /\
  (forall env url w resp soup t,
      http env w (mkRequest url headers) = Answered resp ->
      html_parser env (unicode_dammit env (content resp)) = Some soup ->
      find "title" soup = Some t ->
      string_of t = None ->
      (forall s, fst (fetch_website_contents env url w) <> Return s) /\
      (error_status (status_code resp) = false ->
       distinct_objects soup ->
       fst (fetch_website_contents env url w) = Raise TypeError)).
Proof.
  split.
  - split; [vm_compute; reflexivity|]. split; [reflexivity|].
    intros url w. rewrite fetch_website_contents_run. vm_compute. reflexivity.
  - intros env url w resp soup t Hh Hp Ht Hs.
    rewrite fetch_website_contents_run, Hh, Hp.
    assert (Hti : title_of soup = None) by (unfold title_of; by rewrite Ht).
    split.
    + intros s. destruct (error_status _); [done|]. simpl.
      unfold extract_text. rewrite Hti. by destruct (text_of soup).
    + intros -> Hd. simpl. unfold extract_text. rewrite Hti.
      destruct (find "body" soup) as [body|] eqn:Hb.
      * by rewrite (text_of_distinct soup body Hd Hb).
      * by rewrite (text_of_no_body soup Hb).
Qed.

(** C2, as stated, fails: a title of 2000 characters fills the whole output,
    which then does not begin with the title followed by two line feeds. *)
Lemma title_prefix_counterexample :
  exists t title s,
    find "title" (HtmlParser.BeautifulSoup (long_title_body_page 2000)) = Some t /\
    string_of t = Some title /\
    fst (fetch_website_contents (static_site 200 (long_title_body_page 2000))
           "u" initial_world) = Return s /\
    PyStr.startswith (title +:+ PyStr.LF +:+ PyStr.LF) s = false.
Proof.
  exists (Tag 3 "title" [] [Str NavigableString (times "a" 2000)]),
    (times "a" 2000), (times "a" 2000).
  repeat split; vm_compute; reflexivity.
Qed.

(** C2, amended.  When the first title element has a string, the output is
    the first 2000 characters of that string, two line feeds and the body
    text, so it begins with the title and two line feeds whenever these fit
    in 2000 characters; when there is no title element the output begins with
    [No title found] and two line feeds. *)
Theorem title_starts_output env url w resp soup :
  http env w (mkRequest url headers) = Answered resp ->
  error_status (status_code resp) = false ->
  html_parser env (unicode_dammit env (content resp)) = Some soup ->
  distinct_objects soup ->
  exists text,
    text_of soup = Return text /\
    (forall t title,
        find "title" soup = Some t -> string_of t = Some title ->
        fst (fetch_website_contents env url w)
        = Return (PyStr.slice_to 2000 ((title +:+ PyStr.LF +:+ PyStr.LF) +:+ text)) /\
        (String.length title + 2 <= 2000 ->
         exists rest,
           fst (fetch_website_contents env url w)
           = Return ((title +:+ PyStr.LF +:+ PyStr.LF) +:+ rest))) /\
    (find "title" soup = None ->
     exists rest,
       fst (fetch_website_contents env url w)
       = Return (("No title found" +:+ PyStr.LF +:+ PyStr.LF) +:+ rest)).
Proof.
  intros Hh Hst Hp Hd.
  rewrite fetch_website_contents_run, Hh, Hst, Hp. simpl fst.
  assert (Htext : exists text, text_of soup = Return text).
  { destruct (find "body" soup) as [body|] eqn:Hb.
    - rewrite (text_of_distinct soup body Hd Hb). eauto.
    - rewrite (text_of_no_body soup Hb). eauto. }
  destruct Htext as [text Htext]. exists text. split; [done|].
  unfold extract_text, title_of. rewrite Htext. split.
  - intros t title -> ->. split; [done|]. intros Hlen.
    rewrite slice_to_app by (rewrite !string_app_length; simpl; lia). eauto.
  - intros ->. rewrite slice_to_app by (vm_compute; lia). eauto.
Qed.

Lemma title_starts_output_witness :
  exists text,
    text_of (HtmlParser.BeautifulSoup scenario_page) = Return text /\
    (forall t title,
        find "title" (HtmlParser.BeautifulSoup scenario_page) = Some t ->
        string_of t = Some title ->
        fst (fetch_website_contents (static_site 200 scenario_page) "u" initial_world)
        = Return (PyStr.slice_to 2000 ((title +:+ PyStr.LF +:+ PyStr.LF) +:+ text)) /\
        (String.length title + 2 <= 2000 ->
         exists rest,
           fst (fetch_website_contents (static_site 200 scenario_page) "u"
                  initial_world)
           = Return ((title +:+ PyStr.LF +:+ PyStr.LF) +:+ rest))) /\
    (find "title" (HtmlParser.BeautifulSoup scenario_page) = None ->
     exists rest,
       fst (fetch_website_contents (static_site 200 scenario_page) "u" initial_world)
       = Return (("No title found" +:+ PyStr.LF +:+ PyStr.LF) +:+ rest)).
Proof.
  apply (title_starts_output (static_site 200 scenario_page) "u" initial_world
           (mkResponse 200 (Dammit.utf8_encode scenario_page)) (HtmlParser.BeautifulSoup scenario_page)).
  - reflexivity.
  - reflexivity.
  - reflexivity.
  - apply reference_parser_distinct.
Defined.

(** C6, as stated, fails: on a page without a body whose title has 1999
    characters the output is not the title followed by two line feeds. *)
Lemma no_body_counterexample :
  exists title,
    find "body" (HtmlParser.BeautifulSoup (long_title_page 1999)) = None /\
    title_of (HtmlParser.BeautifulSoup (long_title_page 1999)) = Some title /\
    fst (fetch_website_contents (static_site 200 (long_title_page 1999))
           "u" initial_world)
    = Return (title +:+ PyStr.LF) /\
    fst (fetch_website_contents (static_site 200 (long_title_page 1999))
           "u" initial_world)
    <> Return (title +:+ PyStr.LF +:+ PyStr.LF).
Proof.
  exists (times "a" 1999).
  assert (E : fst (fetch_website_contents (static_site 200 (long_title_page 1999))
                     "u" initial_world) = Return (times "a" 1999 +:+ PyStr.LF))
    by (vm_compute; reflexivity).
  repeat split; try (vm_compute; reflexivity).
  rewrite E. intros H.
  assert (L : Nat.eqb (String.length (times "a" 1999 +:+ PyStr.LF))
                (String.length (times "a" 1999 +:+ PyStr.LF +:+ PyStr.LF)) = true).
  { apply Nat.eqb_eq. congruence. }
  vm_compute in L. discriminate L.
Qed.

(** C6, amended.  Without a body element the body text is the empty string,
    and the output is the first 2000 characters of the title and two line
    feeds: exactly the title followed by two line feeds when the title has at
    most 1998 characters. *)
Theorem no_body_gives_title_only env url w resp soup :
  http env w (mkRequest url headers) = Answered resp ->
  error_status (status_code resp) = false ->
  html_parser env (unicode_dammit env (content resp)) = Some soup ->
  find "body" soup = None ->
  text_of soup = Return "" /\
  forall title,
    title_of soup = Some title ->
    fst (fetch_website_contents env url w)
    = Return (PyStr.slice_to 2000 (title +:+ PyStr.LF +:+ PyStr.LF)) /\
    (String.length title <= 1998 ->
     fst (fetch_website_contents env url w)
     = Return (title +:+ PyStr.LF +:+ PyStr.LF)).
Proof.
  intros Hh Hst Hp Hb.
  rewrite fetch_website_contents_run, Hh, Hst, Hp. simpl fst.
  unfold extract_text. rewrite (text_of_no_body soup Hb). split; [done|].
  intros title ->.
  assert (E : (title +:+ PyStr.LF +:+ PyStr.LF) +:+ ""
              = title +:+ PyStr.LF +:+ PyStr.LF).
  { rewrite string_app_assoc. f_equal. }
  rewrite E. split; [done|]. intros Hlen.
  rewrite slice_to_short; [done|].
  rewrite string_app_length. simpl. lia.
Qed.

Lemma no_body_gives_title_only_witness :
  text_of (HtmlParser.BeautifulSoup (long_title_page 5)) = Return "" /\
  forall title,
    title_of (HtmlParser.BeautifulSoup (long_title_page 5)) = Some title ->
    fst (fetch_website_contents (static_site 200 (long_title_page 5)) "u"
           initial_world)
    = Return (PyStr.slice_to 2000 (title +:+ PyStr.LF +:+ PyStr.LF)) /\
    (String.length title <= 1998 ->
     fst (fetch_website_contents (static_site 200 (long_title_page 5)) "u"
            initial_world)
     = Return (title +:+ PyStr.LF +:+ PyStr.LF)).
Proof.
  apply (no_body_gives_title_only (static_site 200 (long_title_page 5)) "u"
           initial_world (mkResponse 200 (Dammit.utf8_encode (long_title_page 5)))
           (HtmlParser.BeautifulSoup (long_title_page 5)));
    vm_compute; reflexivity.
Defined.

(** C7, as stated, fails: the text of a script element can occur in the
    output when a paragraph next to it has the same text. *)
Lemma noise_text_counterexample :
  exists body noise s,
    find "body" (HtmlParser.BeautifulSoup repeated_text_page) = Some body /\
    In noise (find_all irrelevant_tags body) /\
    text_content noise = "bad()" /\
    fst (fetch_website_contents (static_site 200 repeated_text_page)
           "u" initial_world) = Return s /\
    PyStr.contains (text_content noise) s = true.
Proof.
  exists (Tag 1 "body" []
            [Tag 2 "p" [] [Str NavigableString "bad()"];
             Tag 3 "script" [] [Str Script "bad()"]]),
    (Tag 3 "script" [] [Str Script "bad()"]),
    ("No title found" +:+ PyStr.LF +:+ PyStr.LF +:+ "bad()").
  repeat split; try (vm_compute; reflexivity).
  vm_compute. by left.
Qed.

(** C7, amended.  The script, style, img and input elements below the body
    are removed, with all their content, before the text is collected, so no
    string inside them contributes to the output: the body text is made of
    the strings [get_text] collects (class [NavigableString] or [CData]) from
    the body outside every such element, each stripped, the empty ones left
    out, in document order, joined by line feeds. *)
Theorem noise_removed_before_text env url w resp soup body :
  http env w (mkRequest url headers) = Answered resp ->
  error_status (status_code resp) = false ->
  html_parser env (unicode_dammit env (content resp)) = Some soup ->
  distinct_objects soup ->
  find "body" soup = Some body ->
  text_of soup
  = Return (PyStr.join PyStr.LF (visible_strings irrelevant_tags body)) /\
  forall title,
    title_of soup = Some title ->
    fst (fetch_website_contents env url w)
    = Return (PyStr.slice_to 2000
                ((title +:+ PyStr.LF +:+ PyStr.LF)
                 +:+ PyStr.join PyStr.LF (visible_strings irrelevant_tags body))).
Proof.
  intros Hh Hst Hp Hd Hb.
  rewrite fetch_website_contents_run, Hh, Hst, Hp. simpl fst.
  unfold extract_text. rewrite (text_of_distinct soup body Hd Hb).
  split; [done|]. by intros title ->.
Qed.

Lemma noise_removed_before_text_witness :
  fst (fetch_website_contents (static_site 200 repeated_text_page) "u"
         initial_world)
  = Return ("No title found" +:+ PyStr.LF +:+ PyStr.LF +:+ "bad()").
Proof.
  pose proof (noise_removed_before_text
           (static_site 200 repeated_text_page) "u" initial_world
           (mkResponse 200 (Dammit.utf8_encode repeated_text_page))
           (HtmlParser.BeautifulSoup repeated_text_page)
           (Tag 1 "body" []
              [Tag 2 "p" [] [Str NavigableString "bad()"];
               Tag 3 "script" [] [Str Script "bad()"]])
           eq_refl eq_refl eq_refl
           (reference_parser_distinct repeated_text_page) eq_refl) as [_ H].
  exact (H "No title found" eq_refl).
Defined.

(** ** The claims about failures of the plain fetch *)

Lemma error_status_spec code :
  error_status code = true <-> 400 <= code < 600.
Proof.
  unfold error_status.
  rewrite andb_true_iff, Nat.leb_le, Nat.ltb_lt. tauto.
Qed.

(** C4, as stated, fails: an answer with status 999, which is neither 2xx nor
    3xx, does not make the fetch fail. *)
Lemma status_999_counterexample :
  exists resp,
    http (static_site 999 scenario_page) initial_world (mkRequest "u" headers)
    = Answered resp /\
    ~ (200 <= status_code resp < 400) /\
    fst (fetch_website_contents (static_site 999 scenario_page) "u" initial_world)
    = Return ("Hi" +:+ PyStr.LF +:+ PyStr.LF +:+ "Hello") /\
    fst (fetch_website_links (static_site 999 scenario_links) "u" initial_world)
    = Return [Some "/x"].
Proof.
  exists (mkResponse 999 (Dammit.utf8_encode scenario_page)).
  split; [reflexivity|]. split; [simpl; lia|].
  split; vm_compute; reflexivity.
Qed.

Lemma extract_text_raises soup e :
  extract_text soup = Raise e -> is_FetchError e = false.
Proof.
  unfold extract_text, text_of.
  destruct (find "body" soup) as [body|].
  - destruct (find "body" (decompose_each _ _)).
    + destruct (title_of soup); [discriminate|]. by intros [= <-].
    + by intros [= <-].
  - destruct (title_of soup); [discriminate|]. by intros [= <-].
Qed.

(** C4, amended.  A plain fetch fails with an exception of [requests]
    exactly when the transport fails or the answer has a status from 400 to
    599; the exception reaches the caller as it was raised, with no retry
    ([requests.get] is called once) and nothing returned. *)
Theorem fetch_fails_on_error_status env url w :
  fetch_outcome env url w (fetch_website_contents env url w) /\
  fetch_outcome env url w (fetch_website_links env url w).
Proof.
  unfold fetch_outcome.
  rewrite fetch_website_contents_run, fetch_website_links_run.
  destruct (http env w _) as [resp|reason] eqn:Hh.
  - destruct (error_status (status_code resp)) eqn:Hst.
    + apply error_status_spec in Hst.
      split; (split; [done|]; split; [|split; [done|by intros ? [= <-]]];
              split; [intros _; right; eauto | intros _; eexists; by split]).
    + assert (Hno : ~ (400 <= status_code resp < 600)).
      { rewrite <- error_status_spec. congruence. }
      split; (split; [by destruct (html_parser env _)|];
              split; [|split; [done|by intros ? [= <-]]];
              split; [|intros [[? [=]]|(? & [= <-] & ?)]; done]).
      * intros (e & He & Hfe). destruct (html_parser env _) as [soup|].
        -- simpl in He. apply extract_text_raises in He. congruence.
        -- simpl in He. injection He as <-. discriminate.
      * intros (e & He & Hfe). destruct (html_parser env _) as [soup|].
        -- discriminate.
        -- simpl in He. injection He as <-. discriminate.
  - split; (split; [done|]; split; [|split; [by intros ? [= <-]|done]];
            split; [intros _; left; eauto | intros _; eexists; by split]).
Qed.

(** ** The claim about [fetch_website_links] *)

Lemma links_of_descendants l :
  List.filter truthy (map (get "href") (List.filter (tag_named ["a"]) l))
  = map Some (flat_map own_href l).
Proof.
  induction l as [|d l IH]; [done|]. simpl.
  rewrite map_app, <- IH. destruct d as [k s|u n a cs]; simpl; [done|].
  destruct (String.eqb_spec n "a") as [->|Hn].
  - rewrite bool_decide_eq_true_2 by (by left). simpl.
    destruct (dict_get "href" a) as [h|]; simpl; [|done].
    by destruct (PyStr.nonempty h).
  - rewrite bool_decide_eq_false_2; [done|].
    rewrite list_elem_of_singleton. done.
Qed.

Lemma anchor_hrefs_descendants e :
  flat_map own_href (descendants e) = anchor_hrefs e.
Proof.
  induction e as [k s|u n a cs IH] using PageElement_tree_ind; [done|].
  simpl. induction IH as [|c cs Hc _ IHcs]; [done|].
  simpl. rewrite flat_map_app, Hc, IHcs. by rewrite <- app_assoc.
Qed.

(** C5. [fetch_website_links] returns the href values of the anchor elements
    in document order, without the anchors whose href is missing or empty and
    without removing duplicates; on
    [<a href="/x">a</a><a>b</a><a href="">c</a>] it returns the one link
    [/x]. *)
Theorem links_in_document_order env url w resp soup :
  http env w (mkRequest url headers) = Answered resp ->
  error_status (status_code resp) = false ->
  html_parser env (unicode_dammit env (content resp)) = Some soup ->
  fst (fetch_website_links env url w) = Return (map Some (anchor_hrefs soup)) /\
  fst (fetch_website_links (static_site 200 scenario_links) url w)
  = Return [Some "/x"].
Proof.
  intros Hh Hst Hp. rewrite !fetch_website_links_run, Hh, Hst, Hp. split.
  - simpl. unfold find_all.
    by rewrite links_of_descendants, anchor_hrefs_descendants.
  - vm_compute. reflexivity.
Qed.

Lemma links_in_document_order_witness :
  fst (fetch_website_links (static_site 200 duplicate_links_page) "u"
         initial_world)
  = Return [Some "/b"; Some "/a"; Some "/b"] /\
  fst (fetch_website_links (static_site 200 scenario_links) "u" initial_world)
  = Return [Some "/x"].
Proof.
  exact (links_in_document_order (static_site 200 duplicate_links_page) "u"
           initial_world (mkResponse 200 (Dammit.utf8_encode duplicate_links_page))
           (HtmlParser.BeautifulSoup duplicate_links_page)
           eq_refl eq_refl eq_refl).
Defined.

(** ** The rendered fetch, step by step *)

Lemma selenium_run env url driver close_driver w :
  fetch_website_contents_selenium env url driver close_driver w =
  match driver with
  | Some d =>
      try_finally (rendered_fetch env url d) (cleanup false close_driver d) w
  | None =>
      match chrome_launch env w with
      | Some reason => (Raise (WebDriverException reason), w)
      | None =>
          let d := fresh (dom (sessions w)) in
          try_finally (rendered_fetch env url d) (cleanup true close_driver d)
            (launched d w)
      end
  end.
Proof.
  unfold fetch_website_contents_selenium, bind, webdriver_Chrome, ret.
  destruct driver as [d|]; [reflexivity|].
  by destruct (chrome_launch env w).
Qed.

Lemma rendered_fetch_run env url d w :
  rendered_fetch env url d w =
  match sessions w !! d with
  | None => (Raise (WebDriverException "invalid session id"), w)
  | Some s =>
      if alive s then
        match navigation env w url with
        | Some reason => (Raise (WebDriverException reason), w)
        | None =>
            let w' := rendered_world url d s w in
            match rendered env w' url with
            | Raise e => (Raise e, w')
            | Return html =>
                match html_parser env html with
                | None => (Raise ParserRejectedMarkup, w')
                | Some soup => (extract_text soup, w')
                end
            end
        end
      else (Raise (WebDriverException "invalid session id"), w)
  end.
Proof.
  unfold rendered_fetch, driver_get, driver_implicitly_wait, time_sleep,
    driver_page_source, session_of, BeautifulSoup, bind, lift, ret.
  destruct (sessions w !! d) as [s|] eqn:Hs; [|done].
  destruct (alive s) eqn:Ha; [|done].
  destruct (navigation env w url) as [reason|]; [done|].
  repeat first
    [ rewrite lookup_insert_eq
    | rewrite Ha
    | progress cbn [sessions set_session alive current_url arguments
                    implicit_wait clock sent] ].
  unfold rendered_world, visiting. rewrite ?Ha.
  destruct (rendered env _ url) as [html|e]; [|done].
  destruct (html_parser env html) as [soup|]; [|done].
  unfold extract_text, text_of, title_of, add.
  destruct (find "body" soup) as [body|].
  - destruct (find "body" (decompose_each _ _)); [|done].
    by destruct (match find "title" soup with Some _ => _ | None => _ end).
  - by destruct (match find "title" soup with Some _ => _ | None => _ end).
Qed.

(** The [try] block changes no session but the one of its handle, and does
    not change whether that one is alive. *)
Lemma rendered_fetch_frame env url d w :
  (forall d', d' <> d ->
     sessions (snd (rendered_fetch env url d w)) !! d' = sessions w !! d') /\
  alive <$> sessions (snd (rendered_fetch env url d w)) !! d
  = alive <$> sessions w !! d.
Proof.
  rewrite rendered_fetch_run.
  destruct (sessions w !! d) as [s|] eqn:Hs; [|by simpl; rewrite Hs].
  destruct (alive s); [|by simpl; rewrite Hs].
  destruct (navigation env w url); [by simpl; rewrite Hs|].
  assert (G : (forall d', d' <> d ->
                 sessions (rendered_world url d s w) !! d' = sessions w !! d') /\
              alive <$> sessions (rendered_world url d s w) !! d
              = alive <$> sessions w !! d).
  { split.
    - intros d' Hne. simpl. by rewrite !lookup_insert_ne.
    - simpl. by rewrite lookup_insert_eq, Hs. }
  rewrite Hs in G. cbv zeta. destruct (rendered env _ url); [|done].
  by destruct (html_parser env _).
Qed.

(** ** The claims about [fetch_website_contents_selenium] *)

(** C3. On every way out of [fetch_website_contents_selenium], by return or
    by exception, the session is closed exactly when this call created it and
    [close_driver] is true.  A handle supplied by the caller keeps its state
    whatever the flag; a session created here is afterwards closed if
    [close_driver] and open otherwise; no other session changes.  With a
    session created here, [close_driver] false and a failing navigation, the
    session stays open and the navigation error reaches the caller. *)
Theorem selenium_session_cleanup env url driver close_driver w :
  let '(r, w') := fetch_website_contents_selenium env url driver close_driver w in
  match driver with
  | Some d =>
      alive <$> sessions w' !! d = alive <$> sessions w !! d /\
      (forall d', d' <> d -> sessions w' !! d' = sessions w !! d')
  | None =>
      match chrome_launch env w with
      | Some reason => r = Raise (WebDriverException reason) /\ w' = w
      | None =>
          let d := fresh (dom (sessions w)) in
          sessions w !! d = None /\
          alive <$> sessions w' !! d = Some (negb close_driver) /\
          (forall d', d' <> d -> sessions w' !! d' = sessions w !! d') /\
          (close_driver = false ->
           forall reason,
             navigation env (launched d w) url = Some reason ->
             r = Raise (WebDriverException reason))
      end
  end.
Proof.
  rewrite selenium_run. destruct driver as [d|].
  - (* a handle of the caller *)
    unfold try_finally, cleanup. simpl andb. cbv iota.
    destruct (rendered_fetch_frame env url d w) as [Hother Hd].
    destruct (rendered_fetch env url d w) as [r w1]. simpl in *. auto.
  - destruct (chrome_launch env w) as [reason|]; [done|].
    cbv zeta. set (d := fresh (dom (sessions w))).
    assert (Hfresh : sessions w !! d = None).
    { apply not_elem_of_dom. apply is_fresh. }
    unfold try_finally, cleanup. simpl andb.
    destruct (rendered_fetch_frame env url d (launched d w)) as [Hother Hd].
    pose proof (rendered_fetch_run env url d (launched d w)) as Hrun.
    destruct (rendered_fetch env url d (launched d w)) as [r w1].
    simpl fst in *. simpl snd in *.
    assert (Hd1 : alive <$> sessions w1 !! d = Some true).
    { rewrite Hd. simpl. by rewrite lookup_insert_eq. }
    assert (Ho1 : forall d', d' <> d -> sessions w1 !! d' = sessions w !! d').
    { intros d' Hne. rewrite Hother by done. simpl. by rewrite lookup_insert_ne. }
    assert (Hnav : forall reason,
               navigation env (launched d w) url = Some reason ->
               r = Raise (WebDriverException reason)).
    { intros reason Hn. simpl in Hrun. rewrite lookup_insert_eq in Hrun.
      simpl in Hrun. rewrite Hn in Hrun. congruence. }
    destruct close_driver; cbn [andb negb].
    + destruct (sessions w1 !! d) as [s1|] eqn:Hs1; [|discriminate].
      unfold driver_quit. rewrite Hs1.
      simpl. rewrite lookup_insert_eq. repeat split; auto.
      intros d' Hne. rewrite lookup_insert_ne by done. auto.
    + simpl. repeat split; auto.
Qed.

(** The scenario of C3 on a concrete site: the browser starts, navigation
    fails, the flag is false. *)
Lemma selenium_navigation_failure_scenario :
  let run := fetch_website_contents_selenium unreachable_site "u" None false
               initial_world in
  fst run = Raise (WebDriverException "net::ERR_CONNECTION_REFUSED") /\
  alive <$> sessions (snd run) !! fresh (dom (sessions initial_world)) = Some true.
Proof.
  pose proof (selenium_session_cleanup unreachable_site "u" None false
                initial_world) as H.
  destruct (fetch_website_contents_selenium _ _ _ _ _) as [r w'].
  simpl in H. destruct H as (_ & Hopen & _ & Hnav). split.
  - by apply Hnav.
  - exact Hopen.
Defined.

Lemma cleanup_returns created close_driver d w :
  fst (cleanup created close_driver d w) = Return tt.
Proof.
  unfold cleanup, driver_quit, ret.
  destruct (created && close_driver); [|done].
  by destruct (sessions w !! d).
Qed.

(** The [finally] block does not change the outcome of the [try] block. *)
Lemma try_finally_cleanup {A} (body : M A) created close_driver d w :
  fst (try_finally body (cleanup created close_driver d) w) = fst (body w).
Proof.
  unfold try_finally. destruct (body w) as [r w1].
  pose proof (cleanup_returns created close_driver d w1) as H.
  destruct (cleanup created close_driver d w1) as [[[]|e] w2]; [done|].
  discriminate H.
Qed.

(** C8, as stated, fails: the plain fetch parses the bytes of the response,
    which are decoded first, and the rendered fetch parses the page source, a
    string.  On a UTF-8 page that declares [iso-8859-1] the plain fetch reads
    the two bytes of the accented letter as two Latin-1 characters, while the
    rendered fetch, given the same markup as a string, reads one. *)
Lemma mislabelled_page_counterexample :
  http (static_site 200 mislabelled_page) initial_world (mkRequest "u" headers)
  = Answered (mkResponse 200 (Dammit.utf8_encode mislabelled_page)) /\
  rendered (static_site 200 mislabelled_page) initial_world "u"
  = Return mislabelled_page /\
  fst (fetch_website_contents (static_site 200 mislabelled_page) "u"
         initial_world)
  = Return ("caf" +:+ latin1_char 195 +:+ latin1_char 169
            +:+ PyStr.LF +:+ PyStr.LF +:+ "x") /\
  fst (fetch_website_contents_selenium (static_site 200 mislabelled_page) "u"
         None false initial_world)
  = Return ("caf" +:+ latin1_char 233 +:+ PyStr.LF +:+ PyStr.LF +:+ "x") /\
  fst (fetch_website_contents_selenium (static_site 200 mislabelled_page) "u"
         None false initial_world)
  <> fst (fetch_website_contents (static_site 200 mislabelled_page) "u"
            initial_world).
Proof.
  assert (Hp : fst (fetch_website_contents (static_site 200 mislabelled_page)
                      "u" initial_world)
               = Return ("caf" +:+ latin1_char 195 +:+ latin1_char 169
                         +:+ PyStr.LF +:+ PyStr.LF +:+ "x"))
    by (vm_compute; reflexivity).
  assert (Hr : fst (fetch_website_contents_selenium
                      (static_site 200 mislabelled_page) "u" None false
                      initial_world)
               = Return ("caf" +:+ latin1_char 233
                         +:+ PyStr.LF +:+ PyStr.LF +:+ "x"))
    by (vm_compute; reflexivity).
  split; [reflexivity|]. split; [reflexivity|].
  split; [exact Hp|]. split; [exact Hr|].
  rewrite Hp, Hr. intros H. vm_compute in H. discriminate H.
Qed.

(** C8, amended.  Whenever the bytes of the response decode to the string
    the browser reports as page source, the rendered fetch and the plain
    fetch produce the same outcome: the same title rule, the same removal of
    irrelevant elements, the same joining by line feeds and the same cut at
    2000 characters. *)
Theorem rendered_text_equals_plain_text
        env url url' driver close_driver w w0 resp :
  http env w (mkRequest url headers) = Answered resp ->
  error_status (status_code resp) = false ->
  match driver with
  | Some d => alive <$> sessions w0 !! d = Some true
  | None => chrome_launch env w0 = None
  end ->
  (forall w1, navigation env w1 url' = None) ->
  (forall w1, rendered env w1 url' = Return (unicode_dammit env (content resp))) ->
  fst (fetch_website_contents_selenium env url' driver close_driver w0)
  = fst (fetch_website_contents env url w) /\
  fst (fetch_website_contents env url w)
  = match html_parser env (unicode_dammit env (content resp)) with
    | Some soup => extract_text soup
    | None => Raise ParserRejectedMarkup
    end.
Proof.
  intros Hh Hst Hdrv Hnav Hren.
  assert (Hplain : fst (fetch_website_contents env url w)
                   = match html_parser env (unicode_dammit env (content resp)) with
                     | Some soup => extract_text soup
                     | None => Raise ParserRejectedMarkup
                     end).
  { rewrite fetch_website_contents_run, Hh, Hst.
    by destruct (html_parser env _). }
  split; [|done]. rewrite Hplain, selenium_run.
  assert (Hbody : forall d w1 s,
             sessions w1 !! d = Some s -> alive s = true ->
             fst (rendered_fetch env url' d w1)
             = match html_parser env (unicode_dammit env (content resp)) with
               | Some soup => extract_text soup
               | None => Raise ParserRejectedMarkup
               end).
  { intros d w1 s Hs Ha. rewrite rendered_fetch_run, Hs, Ha, Hnav.
    cbv zeta. rewrite Hren. by destruct (html_parser env _). }
  destruct driver as [d|].
  - rewrite try_finally_cleanup.
    destruct (sessions w0 !! d) as [s|] eqn:Hs; [|discriminate].
    apply (Hbody d w0 s Hs). simpl in Hdrv. congruence.
  - rewrite Hdrv. cbv zeta. rewrite try_finally_cleanup.
    apply (Hbody _ _ (mkSession true chrome_arguments None 0)); [|done].
    simpl. apply lookup_insert_eq.
Qed.

Lemma rendered_text_equals_plain_text_witness :
  fst (fetch_website_contents_selenium (static_site 200 scenario_page) "v"
         None true initial_world)
  = fst (fetch_website_contents (static_site 200 scenario_page) "u" initial_world)
  /\
  fst (fetch_website_contents (static_site 200 scenario_page) "u" initial_world)
  = Return ("Hi" +:+ PyStr.LF +:+ PyStr.LF +:+ "Hello").
Proof.
  exact (rendered_text_equals_plain_text (static_site 200 scenario_page)
           "u" "v" None true initial_world initial_world
           (mkResponse 200 (Dammit.utf8_encode scenario_page))
           eq_refl eq_refl eq_refl (fun _ => eq_refl) (fun _ => eq_refl)).
Defined.

(** * Further properties of the three entry points *)

(** ** The plain fetches and the world *)

Lemma fetch_website_contents_world env url w :
  snd (fetch_website_contents env url w) = requested url w.
Proof.
  rewrite fetch_website_contents_run.
  destruct (http env w _) as [r|]; [|done].
  destruct (error_status _); [done|]. by destruct (html_parser env _).
Qed.

Lemma fetch_website_links_world env url w :
  snd (fetch_website_links env url w) = requested url w.
Proof.
  rewrite fetch_website_links_run.
  destruct (http env w _) as [r|]; [|done].
  destruct (error_status _); [done|]. by destruct (html_parser env _).
Qed.

(** X1. Fetching the contents and then the links of one page makes two
    separate requests for the same URL with the same headers (lines 36-37),
    whatever the two calls produce; neither call touches the browser sessions
    or the clock. *)
Theorem contents_then_links_request_twice env url w :
  let w1 := snd (fetch_website_contents env url w) in
  let w2 := snd (fetch_website_links env url w1) in
  sent w2 = sent w ++ [mkRequest url headers; mkRequest url headers] /\
  sessions w2 = sessions w /\
  clock w2 = clock w.
Proof.
  cbv zeta. rewrite fetch_website_contents_world, fetch_website_links_world.
  unfold requested. simpl. by rewrite <- app_assoc.
Qed.

(** ** The rendered fetch and its driver *)

Lemma try_finally_no_cleanup {A} (body : M A) close_driver d w :
  try_finally body (cleanup false close_driver d) w = body w.
Proof. unfold try_finally, cleanup, ret. simpl. by destruct (body w) as [[] ?]. Qed.

(** X2. [close_driver] is ignored when a driver is passed in (lines 60-62):
    the outcome and the world afterwards are the same for both values. *)
Theorem close_driver_ignored_for_supplied_driver env url d w :
  fetch_website_contents_selenium env url (Some d) true w
  = fetch_website_contents_selenium env url (Some d) false w.
Proof. by rewrite !selenium_run, !try_finally_no_cleanup. Qed.

(** The [try] block keeps the launch arguments of its session. *)
Lemma rendered_fetch_arguments env url d w :
  arguments <$> sessions (snd (rendered_fetch env url d w)) !! d
  = arguments <$> sessions w !! d.
Proof.
  rewrite rendered_fetch_run.
  destruct (sessions w !! d) as [s|] eqn:Hs; [|by simpl; rewrite Hs].
  destruct (alive s); [|by simpl; rewrite Hs].
  destruct (navigation env w url); [by simpl; rewrite Hs|].
  assert (G : arguments <$> sessions (rendered_world url d s w) !! d
              = arguments <$> Some s).
  { simpl. by rewrite lookup_insert_eq. }
  cbv zeta. destruct (rendered env _ url); [|done].
  by destruct (html_parser env _).
Qed.

(** A call without a driver and without [close_driver] leaves behind the
    session it launched, alive and with the launch arguments, and changes no
    other session. *)
Lemma default_call_sessions env url w :
  chrome_launch env w = None ->
  let d := fresh (dom (sessions w)) in
  let w' := snd (fetch_website_contents_selenium env url None false w) in
  sessions w !! d = None /\
  alive <$> sessions w' !! d = Some true /\
  arguments <$> sessions w' !! d = Some chrome_arguments /\
  (forall d', d' <> d -> sessions w' !! d' = sessions w !! d').
Proof.
  intros Hl. cbv zeta. rewrite selenium_run, Hl. cbv zeta.
  set (d := fresh (dom (sessions w))).
  assert (Hfresh : sessions w !! d = None).
  { apply not_elem_of_dom. apply is_fresh. }
  assert (Hw : snd (try_finally (rendered_fetch env url d) (cleanup true false d)
                      (launched d w))
               = snd (rendered_fetch env url d (launched d w))).
  { unfold try_finally, cleanup, ret. simpl.
    by destruct (rendered_fetch env url d (launched d w)). }
  rewrite Hw.
  destruct (rendered_fetch_frame env url d (launched d w)) as [Hother Hd].
  split; [done|]. split; [|split].
  - rewrite Hd. simpl. by rewrite lookup_insert_eq.
  - rewrite rendered_fetch_arguments. simpl. by rewrite lookup_insert_eq.
  - intros d' Hne. rewrite Hother by done. simpl. by rewrite lookup_insert_ne.
Qed.

(** X4. With the default arguments every call launches a browser of its own
    and leaves it running (lines 75-90 and 114-116): after two calls there
    are two different sessions, both alive, neither of which existed
    before. *)
Theorem default_calls_accumulate_sessions env url1 url2 w :
  let w1 := snd (fetch_website_contents_selenium env url1 None false w) in
  let w2 := snd (fetch_website_contents_selenium env url2 None false w1) in
  let d1 := fresh (dom (sessions w)) in
  let d2 := fresh (dom (sessions w1)) in
  chrome_launch env w = None ->
  chrome_launch env w1 = None ->
  d1 <> d2 /\
  sessions w !! d1 = None /\
  sessions w !! d2 = None /\
  alive <$> sessions w2 !! d1 = Some true /\
  alive <$> sessions w2 !! d2 = Some true.
Proof.
  cbv zeta. intros Hl1 Hl2.
  destruct (default_call_sessions env url1 w Hl1) as (Hn1 & Ha1 & _ & Ho1).
  destruct (default_call_sessions env url2 _ Hl2) as (Hn2 & Ha2 & _ & Ho2).
  set (w1 := snd (fetch_website_contents_selenium env url1 None false w)) in *.
  set (d1 := fresh (dom (sessions w))) in *.
  set (d2 := fresh (dom (sessions w1))) in *.
  assert (Hne : d1 <> d2).
  { intros E. rewrite E, Hn2 in Ha1. discriminate. }
  repeat split; auto.
  - rewrite <- (Ho1 d2) by done. done.
  - rewrite (Ho2 d1) by done. done.
Qed.

Lemma default_calls_accumulate_sessions_witness :
  let env := static_site 200 scenario_page in
  let w1 := snd (fetch_website_contents_selenium env "u" None false initial_world) in
  let w2 := snd (fetch_website_contents_selenium env "v" None false w1) in
  let d1 := fresh (dom (sessions initial_world)) in
  let d2 := fresh (dom (sessions w1)) in
  d1 <> d2 /\
  sessions initial_world !! d1 = None /\
  sessions initial_world !! d2 = None /\
  alive <$> sessions w2 !! d1 = Some true /\
  alive <$> sessions w2 !! d2 = Some true.
Proof.
  exact (default_calls_accumulate_sessions (static_site 200 scenario_page)
           "u" "v" initial_world eq_refl eq_refl).
Defined.

(** X5. The browser the rendered fetch launches is given the User-Agent that
    the plain fetch sends in its request (lines 85-86). *)
Theorem same_user_agent_on_both_paths env url w :
  chrome_launch env w = None ->
  exists rq ua,
    last (sent (snd (fetch_website_contents env url w))) = Some rq /\
    dict_get "User-Agent" (req_headers rq) = Some ua /\
    exists s,
      sessions (snd (fetch_website_contents_selenium env url None false w))
        !! fresh (dom (sessions w)) = Some s /\
      In ("user-agent=" +:+ ua) (arguments s).
Proof.
  intros Hl.
  destruct (default_call_sessions env url w Hl) as (_ & _ & Hargs & _).
  exists (mkRequest url headers). eexists. split; [|split; [reflexivity|]].
  - rewrite fetch_website_contents_world. unfold requested. simpl.
    apply last_snoc.
  - destruct (sessions _ !! _) as [s|]; [|discriminate].
    exists s. split; [done|]. injection Hargs as ->.
    unfold chrome_arguments. simpl. auto.
Qed.

Lemma same_user_agent_on_both_paths_witness :
  exists rq ua,
    last (sent (snd (fetch_website_contents (static_site 200 scenario_page) "u"
                       initial_world))) = Some rq /\
    dict_get "User-Agent" (req_headers rq) = Some ua /\
    exists s,
      sessions (snd (fetch_website_contents_selenium
                       (static_site 200 scenario_page) "u" None false
                       initial_world))
        !! fresh (dom (sessions initial_world)) = Some s /\
      In ("user-agent=" +:+ ua) (arguments s).
Proof.
  exact (same_user_agent_on_both_paths (static_site 200 scenario_page) "u"
           initial_world eq_refl).
Defined.

Lemma extract_text_length soup s :
  extract_text soup = Return s -> String.length s <= 2000.
Proof.
  unfold extract_text. destruct (text_of soup) as [text|]; [|discriminate].
  destruct (title_of soup) as [title|]; [|discriminate].
  intros H.
  assert (Hs : s = PyStr.slice_to 2000 ((title +:+ PyStr.LF +:+ PyStr.LF) +:+ text))
    by congruence.
  subst s. apply slice_to_le.
Qed.

(** X6. Every string the rendered fetch returns has at most 2000 characters
    (line 113), with a driver of the caller or one of its own, closed
    afterwards or not. *)
Theorem rendered_contents_at_most_2000 env url driver close_driver w s w' :
  fetch_website_contents_selenium env url driver close_driver w = (Return s, w') ->
  String.length s <= 2000.
Proof.
  intros H.
  assert (Hr : fst (fetch_website_contents_selenium env url driver close_driver w)
               = Return s) by (by rewrite H).
  clear H. rewrite selenium_run in Hr.
  assert (Hbody : forall d w0, fst (rendered_fetch env url d w0) = Return s ->
                               String.length s <= 2000).
  { intros d w0. rewrite rendered_fetch_run.
    destruct (sessions w0 !! d) as [s0|]; [|discriminate].
    destruct (alive s0); [|discriminate].
    destruct (navigation env w0 url); [discriminate|].
    cbv zeta. destruct (rendered env _ url) as [html|]; [|discriminate].
    destruct (html_parser env html) as [soup|]; [|discriminate].
    apply extract_text_length. }
  destruct driver as [d|].
  - rewrite try_finally_cleanup in Hr. eauto.
  - destruct (chrome_launch env w); [discriminate|].
    cbv zeta in Hr. rewrite try_finally_cleanup in Hr. eauto.
Qed.

Lemma rendered_contents_at_most_2000_witness :
  String.length (times "a" 2000) <= 2000.
Proof.
  apply (rendered_contents_at_most_2000
           (static_site 200 (long_title_body_page 3000)) "u" None true
           initial_world (times "a" 2000)
           (snd (fetch_website_contents_selenium
                   (static_site 200 (long_title_body_page 3000)) "u" None true
                   initial_world))).
  vm_compute. reflexivity.
Defined.

(** ** The cut and the body text *)

(** A slice of a concatenation takes from the first part first. *)
Lemma slice_to_app_split n a b :
  PyStr.slice_to n (a +:+ b)
  = PyStr.slice_to n a +:+ PyStr.slice_to (n - String.length a) b.
Proof.
  revert n; induction a as [|c a IH]; intros n.
  - rewrite append_nil. simpl. rewrite Nat.sub_0_r. by destruct n.
  - destruct n as [|n]; [done|].
    rewrite append_cons. simpl. by rewrite IH, append_cons.
Qed.

Lemma slice_to_long n a : n <= String.length a ->
  forall b, PyStr.slice_to n (a +:+ b) = PyStr.slice_to n a.
Proof.
  intros H b. rewrite slice_to_app_split.
  replace (n - String.length a) with 0 by lia. simpl.
  induction (PyStr.slice_to n a) as [|c r IH]; [done|].
  by rewrite append_cons, IH.
Qed.

(** X7. The cut of line 30 serves the title first: the output is the first
    2000 characters of the title, then as much of the two line feeds as still
    fits, then the first [1998 - len(title)] characters of the body text.  A
    title of 2000 characters or more leaves no room for anything else, so the
    output is then the same whatever the body holds. *)
Theorem cut_serves_title_first env url w resp soup title text :
  http env w (mkRequest url headers) = Answered resp ->
  error_status (status_code resp) = false ->
  html_parser env (unicode_dammit env (content resp)) = Some soup ->
  title_of soup = Some title ->
  text_of soup = Return text ->
  fst (fetch_website_contents env url w)
  = Return (PyStr.slice_to 2000 title
            +:+ PyStr.slice_to (2000 - String.length title) (PyStr.LF +:+ PyStr.LF)
            +:+ PyStr.slice_to (1998 - String.length title) text) /\
  (2000 <= String.length title ->
   fst (fetch_website_contents env url w) = Return (PyStr.slice_to 2000 title)).
Proof.
  intros Hh Hst Hp Hti Hte.
  rewrite fetch_website_contents_run, Hh, Hst, Hp. simpl fst.
  unfold extract_text. rewrite Hte, Hti. split.
  - f_equal. rewrite string_app_assoc, !slice_to_app_split.
    replace (2000 - String.length title - String.length (PyStr.LF +:+ PyStr.LF))
      with (1998 - String.length title); [done|].
    change (String.length (PyStr.LF +:+ PyStr.LF)) with 2. lia.
  - intros Hlen. f_equal. rewrite string_app_assoc. by apply slice_to_long.
Qed.

Lemma cut_serves_title_first_witness :
  fst (fetch_website_contents (static_site 200 (long_title_body_page 1997)) "u"
         initial_world)
  = Return (PyStr.slice_to 2000 (times "a" 1997)
            +:+ PyStr.slice_to (2000 - String.length (times "a" 1997))
                  (PyStr.LF +:+ PyStr.LF)
            +:+ PyStr.slice_to (1998 - String.length (times "a" 1997)) "text") /\
  (2000 <= String.length (times "a" 1997) ->
   fst (fetch_website_contents (static_site 200 (long_title_body_page 1997)) "u"
          initial_world)
   = Return (PyStr.slice_to 2000 (times "a" 1997))).
Proof.
  apply (cut_serves_title_first (static_site 200 (long_title_body_page 1997))
           "u" initial_world (mkResponse 200 (Dammit.utf8_encode (long_title_body_page 1997)))
           (HtmlParser.BeautifulSoup (long_title_body_page 1997)));
    vm_compute; reflexivity.
Defined.

Lemma rstrip_idempotent s : PyStr.rstrip (PyStr.rstrip s) = PyStr.rstrip s.
Proof.
  induction s as [|c r IH]; [done|]. simpl.
  destruct (PyStr.rstrip r) as [|c' r'] eqn:Hr.
  - destruct (PyStr.isspace c) eqn:Hc; [done|]. simpl. by rewrite Hc.
  - change (PyStr.rstrip (String c (String c' r')))
      with (match PyStr.rstrip (String c' r') with
            | EmptyString =>
                if PyStr.isspace c then EmptyString else String c EmptyString
            | x => String c x
            end).
    by rewrite IH.
Qed.

Lemma lstrip_head s :
  match PyStr.lstrip s with
  | EmptyString => True
  | String c _ => PyStr.isspace c = false
  end.
Proof.
  induction s as [|c r IH]; [done|]. simpl.
  destruct (PyStr.isspace c) eqn:Hc; [done|]. simpl. done.
Qed.

Lemma lstrip_rstrip_head c r :
  PyStr.isspace c = false ->
  PyStr.lstrip (PyStr.rstrip (String c r)) = PyStr.rstrip (String c r).
Proof.
  intros Hc. simpl. destruct (PyStr.rstrip r); rewrite ?Hc; simpl; by rewrite ?Hc.
Qed.

Lemma strip_idempotent s : PyStr.strip (PyStr.strip s) = PyStr.strip s.
Proof.
  unfold PyStr.strip. pose proof (lstrip_head s) as H.
  destruct (PyStr.lstrip s) as [|c r]; [done|].
  by rewrite lstrip_rstrip_head, rstrip_idempotent.
Qed.

Lemma yield_string_clean d :
  Forall (fun p => p <> EmptyString /\ PyStr.strip p = p) (yield_string true d).
Proof.
  destruct d as [k s|]; simpl; [|constructor].
  destruct (interesting k); [|constructor].
  destruct (PyStr.strip s) as [|c r] eqn:Hs; simpl; [constructor|].
  constructor; [|constructor]. split; [done|].
  rewrite <- Hs. apply strip_idempotent.
Qed.

Lemma visible_strings_clean names e :
  Forall (fun p => p <> EmptyString /\ PyStr.strip p = p)
         (visible_strings names e).
Proof.
  induction e as [k s|u n a cs IH] using PageElement_tree_ind; [constructor|].
  simpl. induction IH as [|c cs Hc _ IHcs]; [constructor|].
  simpl. apply Forall_app. split; [|done].
  destruct (tag_named names c); [constructor|].
  apply Forall_app. split; [apply yield_string_clean | done].
Qed.

Lemma visible_strings_nodes names e :
  visible_strings names e
  = List.filter PyStr.nonempty (map PyStr.strip (text_nodes_outside names e)).
Proof.
  induction e as [k s|u n a cs IH] using PageElement_tree_ind; [done|].
  simpl. induction IH as [|c cs Hc _ IHcs]; [done|].
  simpl. rewrite map_app, List.filter_app, <- IHcs. f_equal.
  destruct (tag_named names c); [done|].
  rewrite map_app, List.filter_app, <- Hc. f_equal.
  destruct c as [k s|]; simpl; [|done].
  destruct (interesting k); simpl; [|done].
  by destruct (PyStr.nonempty (PyStr.strip s)).
Qed.

(** X8. The body text (line 26) is built from the text nodes of the body
    outside the irrelevant elements, in document order: each node is stripped
    of the white space around it, nodes that are then empty are dropped, and
    the rest are joined by line feeds.  So no piece is empty, none begins or
    ends with white space, and a node of white space alone leaves no trace. *)
Theorem body_text_pieces_stripped soup body :
  distinct_objects soup ->
  find "body" soup = Some body ->
  let pieces :=
    List.filter PyStr.nonempty
      (map PyStr.strip (text_nodes_outside irrelevant_tags body)) in
  text_of soup = Return (PyStr.join PyStr.LF pieces) /\
  Forall (fun p => p <> EmptyString /\ PyStr.strip p = p) pieces.
Proof.
  intros Hd Hb. cbv zeta. rewrite <- visible_strings_nodes. split.
  - by apply text_of_distinct.
  - apply visible_strings_clean.
Qed.

Lemma body_text_pieces_stripped_witness :
  text_of (HtmlParser.BeautifulSoup spaced_page)
  = Return (PyStr.join PyStr.LF ["one"; "two"]) /\
  Forall (fun p => p <> EmptyString /\ PyStr.strip p = p) ["one"; "two"].
Proof.
  exact (body_text_pieces_stripped (HtmlParser.BeautifulSoup spaced_page)
           (Tag 1 "body" []
              [Str NavigableString " ";
               Tag 2 "p" [] [Str NavigableString "  one "];
               Str NavigableString " ";
               Tag 3 "p" [] [Str NavigableString " two"];
               Str NavigableString " "])
           (reference_parser_distinct spaced_page) eq_refl).
Defined.

(** ** The links *)

(** X9. What [fetch_website_links] returns holds exactly the non-empty href
    values of the anchor elements of the document: never [None], never the
    empty string, nothing that is not the href of an anchor, and every anchor
    with a non-empty href is there. *)
Theorem links_are_the_nonempty_hrefs env url w resp soup :
  http env w (mkRequest url headers) = Answered resp ->
  error_status (status_code resp) = false ->
  html_parser env (unicode_dammit env (content resp)) = Some soup ->
  exists links,
    fst (fetch_website_links env url w) = Return links /\
    forall l,
      In l links <->
      exists a h,
        In a (descendants soup) /\ tag_named ["a"] a = true /\
        get "href" a = Some h /\ h <> EmptyString /\ l = Some h.
Proof.
  intros Hh Hst Hp. rewrite fetch_website_links_run, Hh, Hst, Hp.
  eexists. split; [reflexivity|]. intros l.
  rewrite List.filter_In, in_map_iff. unfold find_all. split.
  - intros [(a & Hg & Ha) Ht]. apply List.filter_In in Ha as [Ha Hn].
    destruct l as [h|]; [|discriminate Ht].
    exists a, h. repeat split; auto. intros ->. discriminate Ht.
  - intros (a & h & Ha & Hn & Hg & Hne & ->). split.
    + exists a. split; [done|]. by apply List.filter_In.
    + simpl. by destruct h.
Qed.

Lemma links_are_the_nonempty_hrefs_witness :
  exists links,
    fst (fetch_website_links (static_site 200 scenario_links) "u" initial_world)
    = Return links /\
    forall l,
      In l links <->
      exists a h,
        In a (descendants (HtmlParser.BeautifulSoup scenario_links)) /\
        tag_named ["a"] a = true /\
        get "href" a = Some h /\ h <> EmptyString /\ l = Some h.
Proof.
  exact (links_are_the_nonempty_hrefs (static_site 200 scenario_links) "u"
           initial_world (mkResponse 200 (Dammit.utf8_encode scenario_links))
           (HtmlParser.BeautifulSoup scenario_links) eq_refl eq_refl eq_refl).
Defined.
